(** * kapkap: the wallet connection analyzer and the analysis task queue

    A shallow embedding of [src/wallet_analyzer.py] (class
    [WalletConnectionAnalyzer]) and of the credit-metered queue of
    [src/analyzer_queue.py] (class [AnalyzerQueue]) together with the two
    ledger operations of [src/db_manager.py] it calls. Around them: the
    handler of the "Start Analysis" button ([src/handlers/__init__.py], with
    the button [src/handlers/menu_handler.py] builds) and the cache keys
    [src/queue_status.py] reads.

    Conventions of the embedding.
    - Python [int] is [Z]; [len] results are [nat].
    - Python [float] is the field [Q] of exact rationals: every constant of
      the analyzer ([0.4], [0.7], [1.2], ...) is read as the decimal fraction
      it denotes and arithmetic does not round.
    - A holder is the dict built by [TokenAnalyzer.analyze_holder]; every key
      that function always sets is a record field here, so the [KeyError]
      handlers of the analyzer have nothing to catch. A transaction count may
      be an [int] or a [str] (["1000+"]), so [ValueError] stays reachable.
    - A Python [set] is a [gset], a [dict] a [gmap], a [deque] a [list]. *)

From stdpp Require Import gmap strings list.
From Stdlib Require Import Ascii QArith Qminmax Qabs Qpower Lqa Lia Permutation Sorted.

#[local] Set Warnings "-clear-no-such-hyp".

Local Open Scope Z_scope.

(** ** Exceptions *)

Module Exc.

(** The exceptions the modelled code raises or catches by name. *)
Inductive exn : Type :=
  | ZeroDivisionError
  | ValueError
  | KeyError
  | OtherError (msg : string).

(** A computation that returns a value or raises. *)
Inductive exc (A : Type) : Type :=
  | Ret (a : A)
  | Raise (e : exn).
Arguments Ret {A} a.
Arguments Raise {A} e.

Definition bind {A B : Type} (c : exc A) (k : A -> exc B) : exc B :=
  match c with
  | Ret a => k a
  | Raise e => Raise e
  end.

(** [try: body / except Exception as e: handler e] *)
Definition try_except {A : Type} (body : exc A) (handler : exn -> exc A) : exc A :=
  match body with
  | Ret a => Ret a
  | Raise e => handler e
  end.

Definition raises {A : Type} (c : exc A) : bool :=
  match c with
  | Ret _ => false
  | Raise _ => true
  end.

End Exc.

Import Exc.

#[global] Instance exc_ret : MRet exc := @Ret.
#[global] Instance exc_bind : MBind exc := fun A B k c => Exc.bind c k.

(** ** Wallet connection analyzer *)

Module WalletAnalyzer.

Local Open Scope Q_scope.

(** [total_tx_count] as the analyzer accepts it: [_clean_tx_count] takes a
    [str] or a number. *)
Inductive tx_count : Type :=
  | TxStr (s : string)
  | TxNum (n : Z).

Record ChainActivity : Type := {
  total_tx_count : tx_count
}.

Record ActivityInfo : Type := {
  base_chain : ChainActivity;
  ethereum : ChainActivity;
  total_recent_tx_count : Z;
  is_active_overall : bool
}.

Record AgeInfo : Type := {
  wallet_age_days : Z
}.

Record Holder : Type := {
  address : string;
  address_type : string;
  balance_percentage : Q;
  age_info : AgeInfo;
  activity_info : ActivityInfo
}.

(** [tx_count.replace('+', '')] *)
Fixpoint remove_plus (s : string) : string :=
  match s with
  | EmptyString => EmptyString
  | String c s' =>
      if Ascii.eqb c "+"%char then remove_plus s' else String c (remove_plus s')
  end.

Section Analyzer.

(** Python's builtin [int] on a [str]: [None] stands for [ValueError]. *)
Variable int_of_str : string -> option Z.

(** [_clean_tx_count]: [int(tx_count.replace('+', ''))] for a [str],
    [int(tx_count) if tx_count else 0] otherwise. *)
Definition _clean_tx_count (c : tx_count) : exc Z :=
  match c with
  | TxStr s =>
      match int_of_str (remove_plus s) with
      | Some n => Ret n
      | None => Raise ValueError
      end
  | TxNum n => Ret (if Z.eqb n 0 then 0%Z else n)
  end.

(** [min(a, b) / max(a, b) if max(a, b) > 0 else 0] *)
Definition tx_ratio (a b : Z) : Q :=
  if (0 <? Z.max a b)%Z then inject_Z (Z.min a b) / inject_Z (Z.max a b) else 0.

(** The [try] block of [_calculate_tx_similarity]. *)
Definition tx_similarity_body (wallet1 wallet2 : Holder) : exc Q :=
  base_tx1 ← _clean_tx_count (total_tx_count (base_chain (activity_info wallet1)));
  base_tx2 ← _clean_tx_count (total_tx_count (base_chain (activity_info wallet2)));
  eth_tx1 ← _clean_tx_count (total_tx_count (ethereum (activity_info wallet1)));
  eth_tx2 ← _clean_tx_count (total_tx_count (ethereum (activity_info wallet2)));
  let base_ratio := tx_ratio base_tx1 base_tx2 in
  let eth_ratio := tx_ratio eth_tx1 eth_tx2 in
  let similarity := base_ratio * 0.7 + eth_ratio * 0.3 in
  let both_active :=
    is_active_overall (activity_info wallet1) &&
    is_active_overall (activity_info wallet2) in
  Ret (similarity * (if both_active then 1.2 else 0.8)).

(** [_calculate_tx_similarity]: [0.0] on [KeyError], [ValueError] or
    [ZeroDivisionError]. *)
Definition _calculate_tx_similarity (wallet1 wallet2 : Holder) : Q :=
  match tx_similarity_body wallet1 wallet2 with
  | Ret s => s
  | Raise _ => 0
  end.

(** [_calculate_connection_weight] *)
Definition _calculate_connection_weight (wallet1 wallet2 : Holder) : Q :=
  let weight := 0 in
  let time_diff :=
    Z.abs (wallet_age_days (age_info wallet1) - wallet_age_days (age_info wallet2)) in
  let weight :=
    if (time_diff <? 1)%Z then weight + 0.4
    else if (time_diff <? 7)%Z then weight + 0.2
    else weight in
  let similarity := _calculate_tx_similarity wallet1 wallet2 in
  let weight := weight + similarity * 0.4 in
  let balance_diff := Qabs (balance_percentage wallet1 - balance_percentage wallet2) in
  let weight :=
    if Qlt_le_dec balance_diff 1 then weight + 0.2
    else if Qlt_le_dec balance_diff 5 then weight + 0.1
    else weight in
  weight.

(** *** Clustering *)

(** The weight function is the method [self._calculate_connection_weight];
    the loops are stated over any such method. *)
Variable connection_weight : Holder -> Holder -> Q.

(** The inner loop [for wallet2 in holders[i+1:]] of [_find_clusters]. *)
Fixpoint grow_cluster (wallet1 : Holder) (rest : list Holder)
    (current_cluster : list string) (used_wallets : gset string)
    : list string * gset string :=
  match rest with
  | [] => (current_cluster, used_wallets)
  | wallet2 :: rest' =>
      if decide (address wallet2 ∈ used_wallets)
      then grow_cluster wallet1 rest' current_cluster used_wallets
      else if Qle_bool 0.8 (connection_weight wallet1 wallet2)
      then grow_cluster wallet1 rest'
             (current_cluster ++ [address wallet2])
             (used_wallets ∪ {[address wallet2]})
      else grow_cluster wallet1 rest' current_cluster used_wallets
  end.

(** The outer loop [for i, wallet1 in enumerate(holders)]. *)
Fixpoint cluster_loop (holders : list Holder) (clusters : list (list string))
    (used_wallets : gset string) : list (list string) :=
  match holders with
  | [] => clusters
  | wallet1 :: rest =>
      if decide (address wallet1 ∈ used_wallets)
      then cluster_loop rest clusters used_wallets
      else
        let '(current_cluster, used_wallets') :=
          grow_cluster wallet1 rest [address wallet1]
            (used_wallets ∪ {[address wallet1]}) in
        let clusters' :=
          if (1 <? length current_cluster)%nat
          then clusters ++ [current_cluster] else clusters in
        cluster_loop rest clusters' used_wallets'
  end.

End Analyzer.

(** *** Python's [sorted]

    [sorted] is stable, also with [reverse=True]: elements whose keys compare
    equal keep their input order. [precedes y x] says that [y] sorts strictly
    before [x]. *)
Section Sorted.

Context {A : Type} (precedes : A -> A -> bool).

Fixpoint insert_sorted (x : A) (l : list A) : list A :=
  match l with
  | [] => [x]
  | y :: l' => if precedes y x then y :: insert_sorted x l' else x :: y :: l'
  end.

Definition py_sorted (l : list A) : list A := foldr insert_sorted [] l.

(** [a] may stand before [b]: [b] does not sort strictly before [a]. *)
Definition in_order (a b : A) : Prop := precedes b a = false.

End Sorted.

(** [sorted(clusters, key=len, reverse=True)] *)
Definition longer (c1 c2 : list string) : bool := (length c2 <? length c1)%nat.

(** [_find_clusters], over the weight method it calls. *)
Definition find_clusters_with (connection_weight : Holder -> Holder -> Q)
    (holders : list Holder) : list (list string) :=
  py_sorted longer (cluster_loop connection_weight holders [] ∅).

Definition _find_clusters (int_of_str : string -> option Z)
    (holders : list Holder) : list (list string) :=
  find_clusters_with (_calculate_connection_weight int_of_str) holders.

(** *** Risk score *)

Inductive RiskLevel : Type :=
  | ExtremeDanger
  | ElevatedThreat
  | ModerateConcern
  | MinimalRisk
  | NegligibleThreat
  | Unknown.

(** The label of each level, without the emoji that prefixes it. *)
Definition risk_level_label (l : RiskLevel) : string :=
  match l with
  | ExtremeDanger => "Extreme Danger"
  | ElevatedThreat => "Elevated Threat"
  | ModerateConcern => "Moderate Concern"
  | MinimalRisk => "Minimal Risk"
  | NegligibleThreat => "Negligible Threat"
  | Unknown => "Unknown"
  end.

Record Components : Type := {
  cluster_score : Q;
  density_score : Q;
  variance_score : Q
}.

Record RiskScore : Type := {
  score : Q;
  largest_cluster_size : nat;
  num_clusters : nat;
  network_density : Q;
  risk_level : RiskLevel;
  components : Components
}.

(** [_get_default_risk_score] *)
Definition _get_default_risk_score : RiskScore := {|
  score := 0;
  largest_cluster_size := 0;
  num_clusters := 0;
  network_density := 0;
  risk_level := Unknown;
  components := {| cluster_score := 0; density_score := 0; variance_score := 0 |}
|}.

(** [_get_risk_level] *)
Definition _get_risk_level (score : Q) : RiskLevel :=
  if Qle_bool 80 score then ExtremeDanger
  else if Qle_bool 60 score then ElevatedThreat
  else if Qle_bool 40 score then ModerateConcern
  else if Qle_bool 20 score then MinimalRisk
  else NegligibleThreat.

(** Python's [/]: [ZeroDivisionError] on a zero divisor. *)
Definition py_div (a b : Q) : exc Q :=
  if Qeq_bool b 0 then Raise ZeroDivisionError else Ret (a / b).

(** [sum(f(x) for x in l)], started at [acc]. *)
Fixpoint py_sum {A : Type} (f : A -> exc Q) (l : list A) (acc : Q) : exc Q :=
  match l with
  | [] => Ret acc
  | x :: l' => v ← f x; py_sum f l' (acc + v)
  end.

Definition Qof_nat (n : nat) : Q := inject_Z (Z.of_nat n).

(** [max(len(cluster) for cluster in clusters) if clusters else 0] *)
Definition largest (clusters : list (list string)) : nat :=
  match clusters with
  | [] => 0%nat
  | c :: cs => fold_left (fun m c' => Nat.max m (length c')) cs (length c)
  end.

(** The [try] block of [_calculate_risk_score]. *)
Definition risk_score_body (clusters : list (list string)) (total_holders : Z)
    : exc RiskScore :=
  if (total_holders =? 0)%Z then Ret _get_default_risk_score
  else
    let largest_cluster := largest clusters in
    cluster_ratio ← py_div (Qof_nat largest_cluster) (inject_Z total_holders);
    total_connections ←
      py_sum (fun cluster =>
                py_div (Qof_nat (length cluster) * (Qof_nat (length cluster) - 1)) 2)
             clusters 0;
    max_possible_connections ←
      py_div (inject_Z total_holders * (inject_Z total_holders - 1)) 2;
    density ←
      (if Qlt_le_dec 0 max_possible_connections
       then py_div total_connections max_possible_connections
       else Ret 0);
    let cluster_sizes := map (fun cluster => Qof_nat (length cluster)) clusters in
    avg_cluster_size ←
      (match clusters with
       | [] => Ret 0
       | _ => s ← py_sum Ret cluster_sizes 0; py_div s (Qof_nat (length clusters))
       end);
    size_variance ←
      (match clusters with
       | [] => Ret 0
       | _ =>
           s ← py_sum (fun size => Ret ((size - avg_cluster_size) ^ 2)) cluster_sizes 0;
           py_div s (Qof_nat (length clusters))
       end);
    let cluster_score := Qmin (cluster_ratio * 40) 40 in
    let density_score := Qmin (density * 30) 30 in
    v ← py_div size_variance (inject_Z total_holders);
    let variance_score := Qmin (v * 30) 30 in
    let risk_score := cluster_score + density_score + variance_score in
    Ret {|
      score := Qmin risk_score 100;
      largest_cluster_size := largest_cluster;
      num_clusters := length clusters;
      network_density := density;
      risk_level := _get_risk_level risk_score;
      components := {|
        cluster_score := cluster_score;
        density_score := density_score;
        variance_score := variance_score
      |}
    |}.

(** [_calculate_risk_score]: the default structure on any exception. *)
Definition _calculate_risk_score (clusters : list (list string))
    (total_holders : Z) : RiskScore :=
  match risk_score_body clusters total_holders with
  | Ret r => r
  | Raise _ => _get_default_risk_score
  end.

(** *** Creation-time patterns *)

Record CreationPattern : Type := {
  cp_wallets : string * string;
  time_difference : Q;
  cp_combined_balance : Q;
  timestamp1 : Z;
  timestamp2 : Z
}.

(** The sort key [(x['time_difference'], -x['combined_balance'])], compared
    as Python compares tuples. *)
Definition Qltb (a b : Q) : bool := negb (Qle_bool b a).

Definition creation_precedes (y x : CreationPattern) : bool :=
  Qltb (time_difference y) (time_difference x)
  || (Qeq_bool (time_difference y) (time_difference x)
      && Qltb (- cp_combined_balance y) (- cp_combined_balance x)).

Section Creation.

(** The BaseScan reply for an address: [Some t] when the request answers 200
    with status ['1'] and a first transaction stamped [t]; [None] for every
    other reply and for a request that raises (logged, then [continue]). *)
Variable first_tx_timestamp : string -> option Z.

(** The first loop: the dict [wallet_timestamps]. *)
Definition fetch_timestamps (holders : list Holder) : gmap string Z :=
  fold_left
    (fun wallet_timestamps holder =>
       match first_tx_timestamp (address holder) with
       | Some t => <[address holder := t]> wallet_timestamps
       | None => wallet_timestamps
       end)
    holders ∅.

(** One comparison of the inner loop: the pattern appended, if any. *)
Definition compare_pair (wallet_timestamps : gmap string Z)
    (wallet1 : Holder) (t1 : Z) (wallet2 : Holder) : list CreationPattern :=
  match wallet_timestamps !! address wallet2 with
  | None => []
  | Some t2 =>
      let time_diff_minutes := inject_Z (Z.abs (t1 - t2)) / 60 in
      if Qle_bool time_diff_minutes 30
      then [ {| cp_wallets := (address wallet1, address wallet2);
                time_difference := time_diff_minutes;
                cp_combined_balance :=
                  balance_percentage wallet1 + balance_percentage wallet2;
                timestamp1 := t1;
                timestamp2 := t2 |} ]
      else []
  end.

(** The second loop: [patterns] before sorting. *)
Fixpoint creation_pairs (wallet_timestamps : gmap string Z)
    (holders : list Holder) : list CreationPattern :=
  match holders with
  | [] => []
  | wallet1 :: rest =>
      match wallet_timestamps !! address wallet1 with
      | None => creation_pairs wallet_timestamps rest
      | Some t1 =>
          flat_map (compare_pair wallet_timestamps wallet1 t1) rest
          ++ creation_pairs wallet_timestamps rest
      end
  end.

(** [_analyze_creation_patterns] *)
Definition _analyze_creation_patterns (holders : list Holder)
    : list CreationPattern :=
  py_sorted creation_precedes
    (creation_pairs (fetch_timestamps holders) holders).

End Creation.

(** *** Transaction patterns *)

Record TransactionPattern : Type := {
  tp_wallets : string * string;
  similarity : Q;
  tp_combined_balance : Q;
  recent_activity : bool
}.

Record RecentPattern : Type := {
  rp_wallets : string * string;
  value_eth : Q;
  frequency : nat;
  latest_timestamp : Z
}.

Inductive Pattern : Type :=
  | PTransaction (p : TransactionPattern)
  | PRecent (p : RecentPattern).

(** [key=lambda x: (x['similarity'], x['combined_balance']), reverse=True] *)
Definition transaction_precedes (y x : TransactionPattern) : bool :=
  Qltb (similarity x) (similarity y)
  || (Qeq_bool (similarity x) (similarity y)
      && Qltb (tp_combined_balance x) (tp_combined_balance y)).

Section Transaction.

Variable int_of_str : string -> option Z.

Definition similar_pair (wallet1 wallet2 : Holder) : list TransactionPattern :=
  let similarity := _calculate_tx_similarity int_of_str wallet1 wallet2 in
  if Qltb 0.8 similarity
  then [ {| tp_wallets := (address wallet1, address wallet2);
            similarity := similarity;
            tp_combined_balance :=
              balance_percentage wallet1 + balance_percentage wallet2;
            recent_activity :=
              negb (total_recent_tx_count (activity_info wallet1) =? 0)%Z
              || negb (total_recent_tx_count (activity_info wallet2) =? 0)%Z |} ]
  else [].

Fixpoint transaction_pairs (holders : list Holder) : list TransactionPattern :=
  match holders with
  | [] => []
  | wallet1 :: rest => flat_map (similar_pair wallet1) rest ++ transaction_pairs rest
  end.

(** [_analyze_transaction_patterns] *)
Definition _analyze_transaction_patterns (holders : list Holder)
    : list TransactionPattern :=
  py_sorted transaction_precedes (transaction_pairs holders).

End Transaction.

(** *** The entry point *)

(** The dict [analyze_wallet_connections] returns: the four-key result, or
    [{}]. *)
Record ConnectionAnalysis : Type := {
  ca_risk_score : RiskScore;
  ca_clusters : list (list string);
  ca_creation_patterns : list CreationPattern;
  ca_transaction_patterns : list Pattern
}.

Inductive AnalysisDict : Type :=
  | EmptyDict
  | Analysis (r : ConnectionAnalysis).

(** [holder['address_type'] not in ['Contract', 'Developer']] *)
Definition is_user_holder (holder : Holder) : bool :=
  negb (String.eqb (address_type holder) "Contract"
        || String.eqb (address_type holder) "Developer").

Section EntryPoint.

(** The five methods the entry point calls, each one free to raise. *)
Variable creation_step : list Holder -> exc (list CreationPattern).
Variable transaction_step : list Holder -> exc (list TransactionPattern).
Variable recent_step : list Holder -> exc (list RecentPattern).
Variable clusters_step : list Holder -> exc (list (list string)).
Variable risk_step : list (list string) -> Z -> exc RiskScore.

(** The [try] block of [analyze_wallet_connections]. *)
Definition analyze_body (holders_data : list Holder) : exc AnalysisDict :=
  let user_holders := filter (fun h => is_user_holder h = true) holders_data in
  creation_patterns ← creation_step user_holders;
  transaction_patterns ← transaction_step user_holders;
  recent_txs ← recent_step user_holders;
  let transaction_patterns :=
    match recent_txs with
    | [] => map PTransaction transaction_patterns
    | _ => map PTransaction transaction_patterns ++ map PRecent recent_txs
    end in
  clusters ← clusters_step user_holders;
  risk_score ← risk_step clusters (Z.of_nat (length user_holders));
  Ret (Analysis {|
    ca_risk_score := risk_score;
    ca_clusters := clusters;
    ca_creation_patterns := creation_patterns;
    ca_transaction_patterns := transaction_patterns
  |}).

(** [analyze_wallet_connections], over the methods it calls:
    [except Exception] logs and returns [{}]. *)
Definition analyze_wallet_connections_with (holders_data : list Holder)
    : exc AnalysisDict :=
  try_except (analyze_body holders_data) (fun _ => Ret EmptyDict).

End EntryPoint.

(** [analyze_wallet_connections] with the analyzer's own methods. The replies
    of BaseScan are inputs: the first-transaction lookup, and the aggregated
    result of [_analyze_recent_transactions]. *)
Definition analyze_wallet_connections (int_of_str : string -> option Z)
    (first_tx_timestamp : string -> option Z)
    (recent_transactions : list Holder -> exc (list RecentPattern))
    (holders_data : list Holder) : exc AnalysisDict :=
  analyze_wallet_connections_with
    (fun hs => Ret (_analyze_creation_patterns first_tx_timestamp hs))
    (fun hs => Ret (_analyze_transaction_patterns int_of_str hs))
    recent_transactions
    (fun hs => Ret (_find_clusters int_of_str hs))
    (fun cs n => Ret (_calculate_risk_score cs n))
    holders_data.

(** Python's truth value of the returned dict: [{}] is false. *)
Definition dict_truthy (d : AnalysisDict) : bool :=
  match d with
  | EmptyDict => false
  | Analysis _ => true
  end.

(** The guard of the connection section in
    [AnalyzerQueue._send_analysis_results]:
    [analysis_type == "deep" and analysis_data.get('connection_analysis')]. *)
Definition sends_connection_section (analysis_type : string)
    (connection_analysis : AnalysisDict) : bool :=
  String.eqb analysis_type "deep" && dict_truthy connection_analysis.

End WalletAnalyzer.

(** ** The analysis queue *)

Module Queue.

(** *** The credit ledger: the [users] table behind [DatabaseManager]

    The table maps a [user_id] to its [credits]. The store answers every
    request: the [except Exception] branches of the two methods (a failing
    Supabase call) are outside the model. *)

(** [get_user]: the row's credits, [None] for an unknown user. *)
Definition get_user (ledger : gmap Z Z) (user_id : Z) : option Z :=
  ledger !! user_id.

(** [use_credit] *)
Definition use_credit (ledger : gmap Z Z) (user_id amount : Z)
    : bool * gmap Z Z :=
  match ledger !! user_id with
  | None => (false, ledger)
  | Some current_credits =>
      if (amount <=? current_credits)%Z
      then (true, <[user_id := current_credits - amount]> ledger)
      else (false, ledger)
  end.

(** [add_credits] *)
Definition add_credits (ledger : gmap Z Z) (user_id credits : Z)
    : bool * gmap Z Z :=
  if (credits <=? 0)%Z then (false, ledger)
  else
    match ledger !! user_id with
    | None => (false, ledger)
    | Some current => (true, <[user_id := current + credits]> ledger)
    end.

(** *** The state of an [AnalyzerQueue] *)

(** A queued task (its [timestamp] is never read). *)
Record Task : Type := {
  token_address : string;
  chat_id : Z;
  user_id : Z;
  analysis_type : string
}.

(** An entry of [active_tokens]. The record the worker creates has no
    [chat_ids] key. *)
Record InFlight : Type := {
  users : gset Z;
  results_sent : gset Z;
  credits_deducted : gset Z;
  if_analysis_type : string;
  chat_ids : option (gmap Z Z)
}.

(** The assembled analysis ([complete_analysis]). *)
Record Report : Type := {
  r_token_address : string;
  r_analysis_type : string;
  r_data : string
}.

(** What [send_message] and [_send_analysis_results] deliver. *)
Inductive Message : Type :=
  | MsgQueued (token_address analysis_type : string)
  | MsgInsufficient (credits_required balance : Z)
  | MsgDeductError
  | MsgStarting (token_address analysis_type : string) (num_holders : Z)
  | MsgResults (report : Report) (analysis_type : string)
  | MsgRefunded (credits_required : Z) (error : string)
  | MsgRefundError
  | MsgTaskError (error : string).

Record State : Type := {
  queue : list Task;
  processing : bool;
  current_task : option Task;
  active_tokens : gmap string InFlight;
  analysis_cache : gmap string Report;
  analysis_results : gmap Z Report;
  ledger : gmap Z Z;
  outbox : list (Z * Message);
  workers_spawned : nat
}.

Definition set_queue (q : list Task) (s : State) : State :=
  {| queue := q; processing := processing s; current_task := current_task s;
     active_tokens := active_tokens s; analysis_cache := analysis_cache s;
     analysis_results := analysis_results s; ledger := ledger s;
     outbox := outbox s; workers_spawned := workers_spawned s |}.

Definition set_processing (b : bool) (s : State) : State :=
  {| queue := queue s; processing := b; current_task := current_task s;
     active_tokens := active_tokens s; analysis_cache := analysis_cache s;
     analysis_results := analysis_results s; ledger := ledger s;
     outbox := outbox s; workers_spawned := workers_spawned s |}.

Definition set_current_task (t : option Task) (s : State) : State :=
  {| queue := queue s; processing := processing s; current_task := t;
     active_tokens := active_tokens s; analysis_cache := analysis_cache s;
     analysis_results := analysis_results s; ledger := ledger s;
     outbox := outbox s; workers_spawned := workers_spawned s |}.

Definition set_active_tokens (a : gmap string InFlight) (s : State) : State :=
  {| queue := queue s; processing := processing s; current_task := current_task s;
     active_tokens := a; analysis_cache := analysis_cache s;
     analysis_results := analysis_results s; ledger := ledger s;
     outbox := outbox s; workers_spawned := workers_spawned s |}.

Definition set_analysis_cache (c : gmap string Report) (s : State) : State :=
  {| queue := queue s; processing := processing s; current_task := current_task s;
     active_tokens := active_tokens s; analysis_cache := c;
     analysis_results := analysis_results s; ledger := ledger s;
     outbox := outbox s; workers_spawned := workers_spawned s |}.

Definition set_analysis_results (r : gmap Z Report) (s : State) : State :=
  {| queue := queue s; processing := processing s; current_task := current_task s;
     active_tokens := active_tokens s; analysis_cache := analysis_cache s;
     analysis_results := r; ledger := ledger s;
     outbox := outbox s; workers_spawned := workers_spawned s |}.

Definition set_ledger (l : gmap Z Z) (s : State) : State :=
  {| queue := queue s; processing := processing s; current_task := current_task s;
     active_tokens := active_tokens s; analysis_cache := analysis_cache s;
     analysis_results := analysis_results s; ledger := l;
     outbox := outbox s; workers_spawned := workers_spawned s |}.

(** [send_message]: the message leaves for [chat_id]; a failing send is
    logged and changes nothing else. *)
Definition send_message (chat_id : Z) (m : Message) (s : State) : State :=
  {| queue := queue s; processing := processing s; current_task := current_task s;
     active_tokens := active_tokens s; analysis_cache := analysis_cache s;
     analysis_results := analysis_results s; ledger := ledger s;
     outbox := outbox s ++ [(chat_id, m)]; workers_spawned := workers_spawned s |}.

(** [asyncio.create_task(self.process_queue())] *)
Definition spawn_worker (s : State) : State :=
  {| queue := queue s; processing := processing s; current_task := current_task s;
     active_tokens := active_tokens s; analysis_cache := analysis_cache s;
     analysis_results := analysis_results s; ledger := ledger s;
     outbox := outbox s; workers_spawned := S (workers_spawned s) |}.

(** The state [__init__] builds, over a given ledger. *)
Definition init (ledger : gmap Z Z) : State :=
  {| queue := []; processing := false; current_task := None;
     active_tokens := ∅; analysis_cache := ∅; analysis_results := ∅;
     ledger := ledger; outbox := []; workers_spawned := 0 |}.

(** [5 if analysis_type == "deep" else 1] *)
Definition credits_required (analysis_type : string) : Z :=
  if String.eqb analysis_type "deep" then 5 else 1.

(** [f"{token_address}_{analysis_type}"] *)
Definition cache_key (token_address analysis_type : string) : string :=
  token_address +:+ "_" +:+ analysis_type.

(** *** Admission: [add_task]

    [add_task] is read as one atomic step: the coroutine yields only inside
    [send_message], and no other coroutine is run there in the model. *)

(** The balance check and the deduction, written twice in [add_task] (once
    for a token in flight with another type, once before enqueueing):
    [inl] after a rejection, [inr] after a debit. *)
Definition check_and_deduct (chat_id user_id : Z) (analysis_type : string)
    (s : State) : State + State :=
  let credits_required := credits_required analysis_type in
  match get_user (ledger s) user_id with
  | None => inl (send_message chat_id (MsgInsufficient credits_required 0) s)
  | Some credits =>
      if (credits <? credits_required)%Z
      then inl (send_message chat_id (MsgInsufficient credits_required credits) s)
      else
        let '(ok, ledger') := use_credit (ledger s) user_id credits_required in
        if ok then inr (set_ledger ledger' s)
        else inl (send_message chat_id MsgDeductError s)
  end.

(** The entry [add_task] stores for a new task. *)
Definition new_record (chat_id user_id : Z) (analysis_type : string) : InFlight :=
  {| users := {[user_id]};
     results_sent := ∅;
     credits_deducted := {[user_id]};
     if_analysis_type := analysis_type;
     chat_ids := Some {[user_id := chat_id]} |}.

(** The tail of [add_task], from "Check if queue is not empty" on. *)
Definition enqueue_task (token_address : string) (chat_id user_id : Z)
    (analysis_type : string) (s : State) : bool * State :=
  let s :=
    match queue s with
    | [] => s
    | _ => send_message chat_id (MsgQueued token_address analysis_type) s
    end in
  let task :=
    {| token_address := token_address; chat_id := chat_id;
       user_id := user_id; analysis_type := analysis_type |} in
  match check_and_deduct chat_id user_id analysis_type s with
  | inl s' => (false, s')
  | inr s' =>
      let s' := set_queue (queue s' ++ [task]) s' in
      let s' :=
        set_active_tokens
          (<[token_address := new_record chat_id user_id analysis_type]>
             (active_tokens s')) s' in
      let s' := if processing s' then s' else spawn_worker s' in
      (true, s')
  end.

(** The record after a requester joins the waiting list. *)
Definition attach (chat_id user_id : Z) (current_analysis : InFlight) : InFlight :=
  {| users := users current_analysis ∪ {[user_id]};
     results_sent := results_sent current_analysis;
     credits_deducted := credits_deducted current_analysis;
     if_analysis_type := if_analysis_type current_analysis;
     chat_ids :=
       Some (<[user_id := chat_id]> (default ∅ (chat_ids current_analysis))) |}.

(** [add_task] *)
Definition add_task (token_address : string) (chat_id user_id : Z)
    (analysis_type : string) (s : State) : bool * State :=
  match active_tokens s !! token_address with
  | Some current_analysis =>
      if String.eqb (if_analysis_type current_analysis) analysis_type
      then
        if decide (user_id ∈ results_sent current_analysis) then (true, s)
        else
          let s :=
            set_active_tokens
              (<[token_address := attach chat_id user_id current_analysis]>
                 (active_tokens s)) s in
          (true, send_message chat_id (MsgQueued token_address analysis_type) s)
      else
        match check_and_deduct chat_id user_id analysis_type s with
        | inl s' => (false, s')
        | inr s' => enqueue_task token_address chat_id user_id analysis_type s'
        end
  | None => enqueue_task token_address chat_id user_id analysis_type s
  end.

(** *** The worker: [process_queue]

    One turn of the [while self.queue] loop is split where the worker awaits
    the analysis, so that admissions can run in between: [worker_pop] up to
    the call of the analyzer, [worker_finish] from its outcome on. *)

Inductive Outcome : Type :=
  | AnalysisDone (data : string)
  | AnalysisFailed (error : string).

(** The entry the worker creates when the token has none. *)
Definition worker_record (user_id : Z) (analysis_type : string) : InFlight :=
  {| users := {[user_id]};
     results_sent := ∅;
     credits_deducted := ∅;
     if_analysis_type := analysis_type;
     chat_ids := None |}.

(** [50 if analysis_type == "deep" else 10] *)
Definition num_holders (analysis_type : string) : Z :=
  if String.eqb analysis_type "deep" then 50 else 10.

Definition worker_pop (s : State) : State :=
  match queue s with
  | [] => s
  | task :: rest =>
      let s := set_processing true s in
      let s := set_queue rest s in
      let s := set_current_task (Some task) s in
      let s :=
        match active_tokens s !! token_address task with
        | Some _ => s
        | None =>
            set_active_tokens
              (<[token_address task :=
                   worker_record (user_id task) (analysis_type task)]>
                 (active_tokens s)) s
        end in
      send_message (chat_id task)
        (MsgStarting (token_address task) (analysis_type task)
           (num_holders (analysis_type task))) s
  end.

(** The loop [for wait_user_id in waiting_users]: the state and the
    [results_sent] set after it. *)
Definition fan_out (record : InFlight) (report : Report)
    (analysis_type : string) (s : State) : State * gset Z :=
  foldl
    (fun '(s, sent) wait_user_id =>
       if decide (wait_user_id ∈ sent) then (s, sent)
       else
         let target_chat_id :=
           default wait_user_id
             (default ∅ (chat_ids record) !! wait_user_id) in
         let s :=
           set_analysis_results
             (<[wait_user_id := report]> (analysis_results s)) s in
         (send_message target_chat_id (MsgResults report analysis_type) s,
          sent ∪ {[wait_user_id]}))
    (s, results_sent record) (elements (users record)).

(** The inner [try] after the analyzer has returned: cache, then fan out.
    [Some KeyError] when the token has no entry. *)
Definition deliver_results (task : Task) (data : string) (s : State)
    : State * option exn :=
  let report :=
    {| r_token_address := token_address task;
       r_analysis_type := analysis_type task;
       r_data := data |} in
  let s :=
    set_analysis_cache
      (<[cache_key (token_address task) (analysis_type task) := report]>
         (analysis_cache s)) s in
  match active_tokens s !! token_address task with
  | None => (s, Some KeyError)
  | Some record =>
      let '(s, sent) := fan_out record report (analysis_type task) s in
      let record' :=
        {| users := users record; results_sent := sent;
           credits_deducted := credits_deducted record;
           if_analysis_type := if_analysis_type record;
           chat_ids := chat_ids record |} in
      (set_active_tokens (<[token_address task := record']> (active_tokens s)) s,
       None)
  end.

(** [str(e)] *)
Definition exn_text (e : exn) : string :=
  match e with
  | ZeroDivisionError => "division by zero"
  | ValueError => "ValueError"
  | KeyError => "KeyError"
  | OtherError msg => msg
  end.

(** The handler [except Exception as analysis_error]: the refund, and the
    exception that leaves the handler. *)
Definition refund_on_failure (task : Task) (analysis_error : exn) (s : State)
    : State * exn :=
  match active_tokens s !! token_address task with
  | None => (s, KeyError)
  | Some record =>
      if decide (user_id task ∈ credits_deducted record)
      then
        let credits_required := credits_required (analysis_type task) in
        let '(_, ledger') := add_credits (ledger s) (user_id task) credits_required in
        let s := set_ledger ledger' s in
        let record' :=
          {| users := users record; results_sent := results_sent record;
             credits_deducted := credits_deducted record ∖ {[user_id task]};
             if_analysis_type := if_analysis_type record;
             chat_ids := chat_ids record |} in
        let s :=
          set_active_tokens
            (<[token_address task := record']> (active_tokens s)) s in
        (send_message (chat_id task)
           (MsgRefunded credits_required (exn_text analysis_error)) s,
         analysis_error)
      else (s, analysis_error)
  end.

(** The [finally] block. *)
Definition cleanup (task : Task) (s : State) : State :=
  set_current_task None
    (set_active_tokens (delete (token_address task) (active_tokens s)) s).

(** The rest of the turn, from the analyzer's outcome to [finally]. *)
Definition worker_finish (outcome : Outcome) (s : State) : State :=
  match current_task s with
  | None => s
  | Some task =>
      let '(s, raised) :=
        match outcome with
        | AnalysisDone data => deliver_results task data s
        | AnalysisFailed error => (s, Some (OtherError error))
        end in
      let s :=
        match raised with
        | None => s
        | Some analysis_error =>
            let '(s, e) := refund_on_failure task analysis_error s in
            send_message (chat_id task) (MsgTaskError (exn_text e)) s
        end in
      cleanup task s
  end.

(** The loop test failing: [self.processing = False]. *)
Definition worker_stop (s : State) : State :=
  match queue s with
  | [] => set_processing false s
  | _ => s
  end.

(** *** Runs *)

Inductive Event : Type :=
  | Submit (token_address : string) (chat_id user_id : Z) (analysis_type : string)
  | Pop
  | Finish (outcome : Outcome)
  | Stop.

Definition step (s : State) (ev : Event) : State :=
  match ev with
  | Submit token_address chat_id user_id analysis_type =>
      snd (add_task token_address chat_id user_id analysis_type s)
  | Pop => worker_pop s
  | Finish outcome => worker_finish outcome s
  | Stop => worker_stop s
  end.

Definition run (s : State) (evs : list Event) : State := foldl step s evs.

(** The credits of a requester, [0] for an unknown one. *)
Definition balance (s : State) (user_id : Z) : Z :=
  default 0 (ledger s !! user_id).

End Queue.

(** ** Recent transfers between holders

    [_analyze_recent_transactions] of [src/wallet_analyzer.py], the method
    behind the [recent_transactions] argument of the entry point. A
    transaction of the reply is a record whose [timeStamp] and [value] are
    the integers the code parses them to; a reply that does not parse is
    outside the model. *)

Module RecentTransactions.

Import WalletAnalyzer.

Local Open Scope Q_scope.

(** An entry of the [result] list BaseScan returns for [txlist]. *)
Record Tx : Type := {
  tx_timeStamp : Z;
  tx_from : string;
  tx_to : string;
  tx_value : Z;
  tx_input : option string;
  tx_hash : string
}.

(** An entry of [patterns] before the aggregation. *)
Record Transfer : Type := {
  tr_wallets : string * string;
  tr_value_eth : Q;
  tr_timestamp : Z;
  tr_tx_hash : string
}.

(** [str.lower] on the letters A to Z. *)
Definition lower_ascii (c : ascii) : ascii :=
  let n := nat_of_ascii c in
  if ((65 <=? n) && (n <=? 90))%nat then ascii_of_nat (n + 32) else c.

Fixpoint lower (s : string) : string :=
  match s with
  | EmptyString => EmptyString
  | String c s' => String (lower_ascii c) (lower s')
  end.

(** [_is_contract_transaction]: [tx.get('input', '0x') != '0x'] *)
Definition _is_contract_transaction (tx : Tx) : bool :=
  match tx_input tx with
  | None => false
  | Some input => negb (String.eqb input "0x")
  end.

(** [tuple(sorted(pattern['wallets']))] *)
Definition sorted_pair (wallets : string * string) : string * string :=
  if String.ltb (snd wallets) (fst wallets) then (snd wallets, fst wallets)
  else wallets.

(** [tx_pairs[pair].append(pattern)] on a dict that keeps insertion order. *)
Fixpoint group_append (pair : string * string) (pattern : Transfer)
    (tx_pairs : list ((string * string) * list Transfer))
    : list ((string * string) * list Transfer) :=
  match tx_pairs with
  | [] => [(pair, [pattern])]
  | (k, txs) :: rest =>
      if decide (k = pair) then (k, txs ++ [pattern]) :: rest
      else (k, txs) :: group_append pair pattern rest
  end.

Definition group_transfers (patterns : list Transfer)
    : list ((string * string) * list Transfer) :=
  foldl (fun tx_pairs pattern =>
           group_append (sorted_pair (tr_wallets pattern)) pattern tx_pairs)
    [] patterns.

(** [sum(tx['value_eth'] for tx in txs)] *)
Definition total_value (txs : list Transfer) : Q :=
  fold_left Qplus (map tr_value_eth txs) 0.

(** [max(tx['timestamp'] for tx in txs)]; a group is never empty. *)
Definition latest (txs : list Transfer) : Z :=
  match txs with
  | [] => 0%Z
  | tx :: rest => fold_left Z.max (map tr_timestamp rest) (tr_timestamp tx)
  end.

Definition aggregate (entry : (string * string) * list Transfer) : RecentPattern :=
  {| rp_wallets := fst entry;
     value_eth := total_value (snd entry);
     frequency := length (snd entry);
     latest_timestamp := latest (snd entry) |}.

(** [key=lambda x: (x['frequency'], x['value_eth']), reverse=True] *)
Definition recent_precedes (y x : RecentPattern) : bool :=
  (frequency x <? frequency y)%nat
  || ((frequency x =? frequency y)%nat && Qltb (value_eth x) (value_eth y)).

Section Recent.

(** The reply of BaseScan for the transactions of an address: [Some result]
    for an answer 200 with status ['1']; [None] for any other answer and for
    a request that raises (logged, then [continue]). *)
Variable txlist : string -> option (list Tx).

(** [int((datetime.now() - timedelta(days=7)).timestamp())] *)
Variable seven_days_ago : Z.

Definition is_recent_transfer (holder_addresses : gset string) (tx : Tx) : bool :=
  (seven_days_ago <=? tx_timeStamp tx)%Z
  && bool_decide (lower (tx_to tx) ∈ holder_addresses)
  && negb (_is_contract_transaction tx).

(** The patterns one holder's reply adds. *)
Definition transfers_of (holder_addresses : gset string) (holder : Holder)
    : list Transfer :=
  match txlist (address holder) with
  | None => []
  | Some result =>
      let recent_txs :=
        filter (fun tx => is_recent_transfer holder_addresses tx = true) result in
      flat_map
        (fun tx =>
           let value_eth := inject_Z (tx_value tx) / inject_Z (10 ^ 18) in
           if Qltb 0 value_eth
           then [ {| tr_wallets := (lower (tx_from tx), lower (tx_to tx));
                     tr_value_eth := value_eth;
                     tr_timestamp := tx_timeStamp tx;
                     tr_tx_hash := tx_hash tx |} ]
           else [])
        recent_txs
  end.

Definition recent_transfers (holders : list Holder) : list Transfer :=
  let holder_addresses : gset string :=
    list_to_set (map (fun h => lower (address h)) holders) in
  flat_map (transfers_of holder_addresses) holders.

(** [_analyze_recent_transactions] *)
Definition _analyze_recent_transactions (holders : list Holder)
    : list RecentPattern :=
  py_sorted recent_precedes
    (map aggregate (group_transfers (recent_transfers holders))).

End Recent.

End RecentTransactions.

(** ** Long messages, buttons and cache keys

    [AnalyzerQueue.split_and_send_message], [Handlers.handle_analysis_start]
    of [src/handlers/__init__.py] with the button of
    [MenuHandler.get_analysis_options], and the fields
    [QueueStatus.get_queue_status] reads off a cache key. A character is an
    [ascii]; [len] of a text is its number of characters. *)

Module Text.

(** [s.split(sep)] for a separator of one character. *)
Fixpoint py_split (sep : ascii) (s : string) : list string :=
  match s with
  | EmptyString => [EmptyString]
  | String c s' =>
      if Ascii.eqb c sep then EmptyString :: py_split sep s'
      else
        match py_split sep s' with
        | [] => [String c EmptyString]
        | part :: parts => String c part :: parts
        end
  end.

(** [sep in s] *)
Fixpoint has_char (sep : ascii) (s : string) : bool :=
  match s with
  | EmptyString => false
  | String c s' => Ascii.eqb c sep || has_char sep s'
  end.

(** [''.join(parts)] *)
Definition join (parts : list string) : string := foldr String.app EmptyString parts.

Definition newline : ascii := "010"%char.

End Text.

Module Messaging.

Import Text.

(** [split_and_send_message]: the texts handed to [send_message], in order.
    [header n] stands for the line that announces part [n]. *)
Definition MAX_MESSAGE_LENGTH : nat := 4096.

Fixpoint build_chunks (lines : list string) (chunks : list string)
    (current_chunk : string) : list string * string :=
  match lines with
  | [] => (chunks, current_chunk)
  | line :: rest =>
      if (String.length current_chunk + String.length line + 1
          <=? MAX_MESSAGE_LENGTH)%nat
      then build_chunks rest chunks
             (current_chunk +:+ line +:+ String newline EmptyString)
      else
        build_chunks rest
          (match current_chunk with
           | EmptyString => chunks
           | _ => chunks ++ [current_chunk]
           end)
          (line +:+ String newline EmptyString)
  end.

Definition message_chunks (text : string) : list string :=
  let '(chunks, current_chunk) := build_chunks (py_split newline text) [] EmptyString in
  match current_chunk with
  | EmptyString => chunks
  | _ => chunks ++ [current_chunk]
  end.

Definition split_and_send_message (header : nat -> string) (text : string)
    : list string :=
  if (String.length text <=? MAX_MESSAGE_LENGTH)%nat then [text]
  else imap (fun i chunk => header (S i) +:+ chunk) (message_chunks text).

End Messaging.

Module Handlers.

Import Text Queue.

(** The data of the "Start Analysis" button that
    [MenuHandler.get_analysis_options] builds:
    [f"analyze_{analysis_type}_{token_address}"]. *)
Definition analyze_callback_data (analysis_type token_address : string) : string :=
  "analyze_" +:+ analysis_type +:+ "_" +:+ token_address.

(** [Handlers.handle_analysis_start]: the state after the callback of a
    button with [data], pressed by [user_id] in [chat_id]. *)
Definition handle_analysis_start (data : string) (chat_id user_id : Z)
    (s : State) : State :=
  match py_split "_" data with
  | [_; analysis_type; token_address] =>
      let required_credits := credits_required analysis_type in
      match get_user (ledger s) user_id with
      | None => send_message chat_id (MsgInsufficient required_credits 0) s
      | Some credits =>
          if (credits <? required_credits)%Z
          then send_message chat_id (MsgInsufficient required_credits credits) s
          else snd (add_task token_address chat_id user_id analysis_type s)
      end
  | _ => s
  end.

(** The two fields [QueueStatus.get_queue_status] reads off a cache key:
    [key.split('_')[0]] and [key.split('_')[1]]; [None] stands for
    [IndexError]. *)
Definition cache_key_fields (key : string) : option (string * string) :=
  match py_split "_" key with
  | token :: analysis_type :: _ => Some (token, analysis_type)
  | _ => None
  end.

End Handlers.

(** * Well-formed inputs and sample data *)

Module Inputs.

Import WalletAnalyzer.

Local Open Scope Q_scope.

(** A transaction count is well formed when it does not clean to a negative
    number (HolderDataProvider reports [len] results and parsed counters). *)
Definition count_nonneg (int_of_str : string -> option Z) (c : tx_count) : Prop :=
  match _clean_tx_count int_of_str c with
  | Ret n => (0 <= n)%Z
  | Raise _ => True
  end.

Definition nonneg_counts (int_of_str : string -> option Z) (h : Holder) : Prop :=
  count_nonneg int_of_str (total_tx_count (base_chain (activity_info h))) /\
  count_nonneg int_of_str (total_tx_count (ethereum (activity_info h))).

(** A parser for the witnesses: it rejects every string. *)
Definition no_int (_ : string) : option Z := None.

(** A holder with fixed attributes, and a table of weights over the
    addresses A, B, C. *)
Definition sample_holder (a : string) : Holder :=
  {| address := a;
     address_type := "User";
     balance_percentage := 1.5;
     age_info := {| wallet_age_days := 10 |};
     activity_info :=
       {| base_chain := {| total_tx_count := TxNum 5 |};
          ethereum := {| total_tx_count := TxNum 7 |};
          total_recent_tx_count := 1;
          is_active_overall := true |} |}.

Definition table_weight (x y : Holder) : Q :=
  if String.eqb (address x) "A" && String.eqb (address y) "C" then 0.3 else 0.9.

(** The creation-time patterns in the spec's words, to compare with
    [_analyze_creation_patterns]: every pair of holders (in input order) with
    a resolvable first-activity timestamp is retained when the two
    timestamps are at most 30 minutes (1800 seconds) apart. *)
Fixpoint spec_pairs (holders : list Holder) : list (Holder * Holder) :=
  match holders with
  | [] => []
  | h :: rest => map (pair h) rest ++ spec_pairs rest
  end.

Definition spec_within_30_minutes (first_tx_timestamp : string -> option Z)
    (p : Holder * Holder) : bool :=
  match first_tx_timestamp (address (fst p)), first_tx_timestamp (address (snd p)) with
  | Some t1, Some t2 => (Z.abs (t1 - t2) <=? 1800)%Z
  | _, _ => false
  end.

Definition spec_creation_pattern (first_tx_timestamp : string -> option Z)
    (p : Holder * Holder) : CreationPattern :=
  let t1 := default 0%Z (first_tx_timestamp (address (fst p))) in
  let t2 := default 0%Z (first_tx_timestamp (address (snd p))) in
  {| cp_wallets := (address (fst p), address (snd p));
     time_difference := inject_Z (Z.abs (t1 - t2)) / 60;
     cp_combined_balance := balance_percentage (fst p) + balance_percentage (snd p);
     timestamp1 := t1;
     timestamp2 := t2 |}.

(** The order of the result: time difference ascending, then combined
    balance descending. *)
Definition spec_creation_order (a b : CreationPattern) : Prop :=
  time_difference a < time_difference b \/
  (time_difference a == time_difference b /\
   cp_combined_balance b <= cp_combined_balance a).

(** Sample runs of the queue. User 1 holds 1 credit, user 2 holds 10,
    user 3 holds none; user [n] talks through chat [100 + n]. *)
Definition sample_ledger : gmap Z Z := {[ 1%Z := 1%Z; 2%Z := 10%Z; 3%Z := 0%Z ]}.

(** User 1 has asked for a quick analysis of token T and the worker has
    started on it. *)
Definition quick_in_flight : Queue.State :=
  Queue.run (Queue.init sample_ledger)
    [Queue.Submit "T" 101 1 "quick"; Queue.Pop].

(** Then user 2 asks for a deep analysis of the same token. *)
Definition deep_submitted : Queue.State :=
  Queue.run quick_in_flight [Queue.Submit "T" 102 2 "deep"].

(** Then the quick analysis fails, the worker starts on the deep one, and
    that one fails as well. *)
Definition both_failed : Queue.State :=
  Queue.run deep_submitted
    [Queue.Finish (Queue.AnalysisFailed "provider down");
     Queue.Pop;
     Queue.Finish (Queue.AnalysisFailed "provider down")].

End Inputs.

(** * What the further properties are stated with *)

Module MoreInputs.
Import WalletAnalyzer.
Local Open Scope Q_scope.
Definition spec_transaction_pattern (int_of_str : string -> option Z)
    (p : Holder * Holder) : TransactionPattern :=
  {| tp_wallets := (address (fst p), address (snd p));
     similarity := _calculate_tx_similarity int_of_str (fst p) (snd p);
     tp_combined_balance := balance_percentage (fst p) + balance_percentage (snd p);
     recent_activity :=
       negb (total_recent_tx_count (activity_info (fst p)) =? 0)%Z
       || negb (total_recent_tx_count (activity_info (snd p)) =? 0)%Z |}.

Definition spec_transaction_order (a b : TransactionPattern) : Prop :=
  similarity b < similarity a \/
  (similarity a == similarity b /\ tp_combined_balance b <= tp_combined_balance a).

Definition sample_contract (a : string) : Holder :=
  {| address := a;
     address_type := "Contract";
     balance_percentage := 1.5;
     age_info := {| wallet_age_days := 10 |};
     activity_info :=
       {| base_chain := {| total_tx_count := TxNum 5 |};
          ethereum := {| total_tx_count := TxNum 7 |};
          total_recent_tx_count := 1;
          is_active_overall := true |} |}.

(** What holds of one cluster: a seed of the batch, then at least one other
    address, each the address of a holder of the batch that reaches the
    threshold against the seed. *)
Definition cluster_ok (w : Holder -> Holder -> Q) (holders : list Holder)
    (c : list string) : Prop :=
  exists seed members,
    c = address seed :: members /\ members <> [] /\ seed ∈ holders /\
    forall a, a ∈ members ->
      exists h, h ∈ holders /\ address h = a /\ 0.8 <= w seed h.

(** How grave a level is. *)
Definition severity (l : RiskLevel) : nat :=
  match l with
  | Unknown => 0
  | NegligibleThreat => 0
  | MinimalRisk => 1
  | ModerateConcern => 2
  | ElevatedThreat => 3
  | ExtremeDanger => 4
  end.

End MoreInputs.

Module RecentInputs.
Import WalletAnalyzer RecentTransactions.
Local Open Scope Q_scope.

(** Most frequent first, then largest value first. *)
Definition spec_recent_order (a b : RecentPattern) : Prop :=
  (frequency b < frequency a)%nat \/
  (frequency a = frequency b /\ value_eth b <= value_eth a).

(** What holds of one aggregated pattern. *)
Definition recent_ok (holder_addresses : gset string) (r : RecentPattern) : Prop :=
  (1 <= frequency r)%nat /\ 0 < value_eth r /\
  String.ltb (snd (rp_wallets r)) (fst (rp_wallets r)) = false /\
  (fst (rp_wallets r) ∈ holder_addresses \/ snd (rp_wallets r) ∈ holder_addresses).

(** What the grouping keeps true of the dict, for the patterns met so far. *)
Definition group_inv (P : Transfer -> Prop) (n : nat)
    (g : list ((string * string) * list Transfer)) : Prop :=
  NoDup (map fst g) /\
  Forall (fun e => snd e <> [] /\
                   Forall (fun p => P p /\ sorted_pair (tr_wallets p) = fst e)
                     (snd e)) g /\
  sum_list (map (fun e => length (snd e)) g) = n.

End RecentInputs.

Module QueueMore.
Import Queue.


(** No account is overdrawn. *)
Definition ledger_nonneg (ledger : gmap Z Z) : Prop :=
  forall u c, ledger !! u = Some c -> 0 <= c.




End QueueMore.

Module TextInputs.

Import Text Messaging.


(** A report of 400 lines, 6800 characters. *)
Definition sample_report : string :=
  join (replicate 400 ("holder 0xabc 1.5%" +:+ String newline EmptyString)).

End TextInputs.

(** * Properties of the wallet connection analyzer *)

Module AnalyzerFacts.

Import WalletAnalyzer Inputs.

Local Open Scope Q_scope.

(** ** Arithmetic helpers *)

Lemma Qle_bool_false (a b : Q) : Qle_bool a b = false <-> b < a.
Proof.
  split.
  - intros H. apply Qnot_le_lt. intros Hle.
    apply Qle_bool_iff in Hle. congruence.
  - intros H. destruct (Qle_bool a b) eqn:E; [|reflexivity].
    apply Qle_bool_iff in E. exfalso. apply (Qlt_not_le _ _ H E).
Qed.

Lemma Qltb_iff (a b : Q) : Qltb a b = true <-> a < b.
Proof.
  unfold Qltb. rewrite negb_true_iff. apply Qle_bool_false.
Qed.

Lemma Qltb_false (a b : Q) : Qltb a b = false <-> b <= a.
Proof.
  unfold Qltb. rewrite negb_false_iff. apply Qle_bool_iff.
Qed.

Lemma py_div_nonzero (a b : Q) : ~ b == 0 -> py_div a b = Ret (a / b).
Proof.
  intros Hb. unfold py_div.
  destruct (Qeq_bool b 0) eqn:E; [|reflexivity].
  apply Qeq_bool_iff in E. contradiction.
Qed.

Lemma py_sum_total {A : Type} (f : A -> exc Q) (l : list A) :
  (forall x, exists v, f x = Ret v) ->
  forall acc, exists v, py_sum f l acc = Ret v.
Proof.
  intros Hf. induction l as [|x l IH]; intros acc; simpl.
  - eauto.
  - destruct (Hf x) as [v ->]. simpl. apply IH.
Qed.

Lemma inject_Z_nonzero (n : Z) : n <> 0%Z -> ~ inject_Z n == 0.
Proof.
  intros Hn H. unfold Qeq in H. simpl in H. lia.
Qed.

Lemma Qof_nat_S_nonzero (n : nat) : ~ Qof_nat (S n) == 0.
Proof.
  unfold Qof_nat. apply inject_Z_nonzero. lia.
Qed.

(** ** Clustering *)

(** C4. For holders [A; B; C] with w(A,B) = 0.9, w(B,C) = 0.9 and
    w(A,C) = 0.3 the clustering returns exactly [[A; B]]: a candidate is
    compared with the seed of the cluster only, so C (compared with A) stays
    unclustered. *)
Theorem find_clusters_seed_only (w : Holder -> Holder -> Q) (A B C : Holder) :
  address A <> address B ->
  address A <> address C ->
  address B <> address C ->
  w A B == 0.9 -> w B C == 0.9 -> w A C == 0.3 ->
  find_clusters_with w [A; B; C] = [[address A; address B]].
Proof.
  intros HAB HAC HBC WAB WBC WAC.
  assert (Qle_bool 0.8 (w A B) = true) as EAB.
  { apply Qle_bool_iff. rewrite WAB. discriminate. }
  assert (Qle_bool 0.8 (w A C) = false) as EAC.
  { apply Qle_bool_false. rewrite WAC. reflexivity. }
  unfold find_clusters_with.
  cbn [cluster_loop grow_cluster].
  rewrite (decide_False (P := address A ∈ (∅ : gset string))) by set_solver.
  cbn [cluster_loop grow_cluster].
  rewrite decide_False by set_solver.
  rewrite EAB.
  rewrite decide_False by set_solver.
  rewrite EAC.
  rewrite decide_True by set_solver.
  rewrite decide_False by set_solver.
  reflexivity.
Qed.

Lemma find_clusters_seed_only_witness :
  find_clusters_with table_weight
    [sample_holder "A"; sample_holder "B"; sample_holder "C"]
  = [["A"; "B"]]%string.
Proof.
  apply (find_clusters_seed_only table_weight
           (sample_holder "A") (sample_holder "B") (sample_holder "C"));
    solve [discriminate | reflexivity].
Defined.

(** ** Connection weight *)

Lemma tx_ratio_le_1 (a b : Z) : tx_ratio a b <= 1.
Proof.
  unfold tx_ratio. destruct (0 <? Z.max a b)%Z eqn:E; [|discriminate].
  apply Z.ltb_lt in E.
  apply Qle_shift_div_r.
  - rewrite Zlt_Qlt in E. exact E.
  - rewrite Qmult_1_l. rewrite <- Zle_Qle. lia.
Qed.

Lemma tx_ratio_nonneg (a b : Z) : (0 <= a)%Z -> (0 <= b)%Z -> 0 <= tx_ratio a b.
Proof.
  intros Ha Hb. unfold tx_ratio.
  destruct (0 <? Z.max a b)%Z eqn:E; [|discriminate].
  apply Z.ltb_lt in E.
  apply Qle_shift_div_l.
  - rewrite Zlt_Qlt in E. exact E.
  - rewrite Qmult_0_l. change 0 with (inject_Z 0). rewrite <- Zle_Qle. lia.
Qed.

Lemma tx_similarity_le (int_of_str : string -> option Z) (wallet1 wallet2 : Holder) :
  _calculate_tx_similarity int_of_str wallet1 wallet2 <= 1.2.
Proof.
  unfold _calculate_tx_similarity, tx_similarity_body.
  destruct (_clean_tx_count _ (total_tx_count (base_chain (activity_info wallet1))))
    as [b1|]; [|discriminate].
  destruct (_clean_tx_count _ (total_tx_count (base_chain (activity_info wallet2))))
    as [b2|]; [|discriminate].
  destruct (_clean_tx_count _ (total_tx_count (ethereum (activity_info wallet1))))
    as [e1|]; [|discriminate].
  destruct (_clean_tx_count _ (total_tx_count (ethereum (activity_info wallet2))))
    as [e2|]; [|discriminate].
  cbn [mbind exc_bind Exc.bind].
  pose proof (tx_ratio_le_1 b1 b2) as Hb.
  pose proof (tx_ratio_le_1 e1 e2) as He.
  destruct (is_active_overall (activity_info wallet1)
            && is_active_overall (activity_info wallet2)); lra.
Qed.

Lemma tx_similarity_nonneg (int_of_str : string -> option Z)
    (wallet1 wallet2 : Holder) :
  nonneg_counts int_of_str wallet1 -> nonneg_counts int_of_str wallet2 ->
  0 <= _calculate_tx_similarity int_of_str wallet1 wallet2.
Proof.
  intros [Hb1 He1] [Hb2 He2].
  unfold count_nonneg in *.
  unfold _calculate_tx_similarity, tx_similarity_body.
  destruct (_clean_tx_count _ (total_tx_count (base_chain (activity_info wallet1))))
    as [b1|]; [|apply Qle_refl].
  destruct (_clean_tx_count _ (total_tx_count (base_chain (activity_info wallet2))))
    as [b2|]; [|apply Qle_refl].
  destruct (_clean_tx_count _ (total_tx_count (ethereum (activity_info wallet1))))
    as [e1|]; [|apply Qle_refl].
  destruct (_clean_tx_count _ (total_tx_count (ethereum (activity_info wallet2))))
    as [e2|]; [|apply Qle_refl].
  cbn [mbind exc_bind Exc.bind].
  pose proof (tx_ratio_nonneg b1 b2 Hb1 Hb2) as Hb.
  pose proof (tx_ratio_nonneg e1 e2 He1 He2) as He.
  destruct (is_active_overall (activity_info wallet1)
            && is_active_overall (activity_info wallet2)); lra.
Qed.

(** C5, as the code has it. For every pair of holder records with
    non-negative transaction counts the connection weight lies in
    [0, 1.08]: the similarity is scaled by 1.2 for two active wallets, so its
    share reaches 0.48 and the three shares add up to at most 1.08. *)
Theorem connection_weight_bounds (int_of_str : string -> option Z)
    (wallet1 wallet2 : Holder) :
  nonneg_counts int_of_str wallet1 -> nonneg_counts int_of_str wallet2 ->
  0 <= _calculate_connection_weight int_of_str wallet1 wallet2 /\
  _calculate_connection_weight int_of_str wallet1 wallet2 <= 1.08.
Proof.
  intros H1 H2.
  pose proof (tx_similarity_le int_of_str wallet1 wallet2) as Hle.
  pose proof (tx_similarity_nonneg int_of_str wallet1 wallet2 H1 H2) as Hge.
  unfold _calculate_connection_weight.
  set (sim := _calculate_tx_similarity int_of_str wallet1 wallet2) in *.
  cbv zeta.
  destruct (Z.abs _ <? 1)%Z; [|destruct (Z.abs _ <? 7)%Z];
    (destruct (Qlt_le_dec _ 1); [|destruct (Qlt_le_dec _ 5)]);
    split; lra.
Qed.

Lemma connection_weight_bounds_witness :
  0 <= _calculate_connection_weight no_int (sample_holder "A") (sample_holder "B") /\
  _calculate_connection_weight no_int (sample_holder "A") (sample_holder "B") <= 1.08.
Proof.
  apply (connection_weight_bounds no_int (sample_holder "A") (sample_holder "B"));
    split; vm_compute; discriminate.
Defined.

(** C5 as stated fails: two active holders of equal age, equal balance and
    equal transaction counts have weight 0.4 + 1.2 * 0.4 + 0.2 = 1.08 > 1. *)
Lemma connection_weight_exceeds_one :
  _calculate_connection_weight no_int (sample_holder "A") (sample_holder "B") == 1.08 /\
  ~ _calculate_connection_weight no_int (sample_holder "A") (sample_holder "B") <= 1.
Proof.
  split.
  - reflexivity.
  - intros H. vm_compute in H. apply H. reflexivity.
Qed.

(** ** Python's [sorted] *)

Section SortedFacts.

Context {A : Type} (precedes : A -> A -> bool).

Hypothesis precedes_asym :
  forall x y, precedes y x = true -> precedes x y = false.
Hypothesis precedes_negtrans :
  forall x y z, precedes y x = false -> precedes z y = false -> precedes z x = false.

Lemma insert_sorted_perm (x : A) (l : list A) :
  Permutation (insert_sorted precedes x l) (x :: l).
Proof.
  induction l as [|y l IH]; simpl.
  - reflexivity.
  - destruct (precedes y x).
    + rewrite IH. apply perm_swap.
    + reflexivity.
Qed.

Lemma py_sorted_perm (l : list A) : Permutation (py_sorted precedes l) l.
Proof.
  induction l as [|x l IH]; simpl.
  - reflexivity.
  - rewrite insert_sorted_perm. apply perm_skip. exact IH.
Qed.

Lemma insert_sorted_in_order (x : A) (l : list A) :
  StronglySorted (in_order precedes) l -> StronglySorted (in_order precedes) (insert_sorted precedes x l).
Proof.
  induction l as [|y l IH]; intros Hs; simpl.
  - constructor; constructor.
  - apply StronglySorted_inv in Hs. destruct Hs as [Hl Hy].
    destruct (precedes y x) eqn:E.
    + constructor; [apply IH; exact Hl|].
      rewrite Forall_forall. intros z Hz.
      rewrite insert_sorted_perm in Hz.
      apply elem_of_cons in Hz. destruct Hz as [->|Hz].
      * unfold in_order. apply precedes_asym. exact E.
      * rewrite Forall_forall in Hy. apply Hy. exact Hz.
    + constructor; [constructor; assumption|].
      constructor; [exact E|].
      rewrite Forall_forall. intros z Hz. unfold in_order.
      apply (precedes_negtrans x y z); [exact E|].
      rewrite Forall_forall in Hy. apply Hy. exact Hz.
Qed.

Lemma py_sorted_in_order (l : list A) :
  StronglySorted (in_order precedes) (py_sorted precedes l).
Proof.
  induction l as [|x l IH]; simpl.
  - constructor.
  - apply insert_sorted_in_order. exact IH.
Qed.

End SortedFacts.

Lemma StronglySorted_weaken {A : Type} (R S : A -> A -> Prop) (l : list A) :
  (forall a b, R a b -> S a b) -> StronglySorted R l -> StronglySorted S l.
Proof.
  intros HRS Hs. induction Hs as [|a l Hl IH Ha]; constructor.
  - exact IH.
  - eapply Forall_impl; [exact Ha|]. intros b. apply HRS.
Qed.

(** ** Creation-time patterns *)

Lemma creation_precedes_false (y x : CreationPattern) :
  creation_precedes y x = false <-> spec_creation_order x y.
Proof.
  unfold creation_precedes, spec_creation_order.
  rewrite orb_false_iff, andb_false_iff, !Qltb_false.
  split.
  - intros [Hle [Hne|Hcb]].
    + left. apply Qle_lteq in Hle. destruct Hle as [Hlt|Heq]; [exact Hlt|].
      apply Qeq_bool_neq in Hne. exfalso. apply Hne. symmetry. exact Heq.
    + apply Qle_lteq in Hle. destruct Hle as [Hlt|Heq]; [left; exact Hlt|].
      right. split; [exact Heq|]. lra.
  - intros [Hlt|[Heq Hcb]].
    + split; [apply Qlt_le_weak; exact Hlt|].
      left. destruct (Qeq_bool (time_difference y) (time_difference x)) eqn:E;
        [|reflexivity].
      apply Qeq_bool_iff in E. lra.
    + split; [lra|]. right. lra.
Qed.

Lemma creation_precedes_true (y x : CreationPattern) :
  creation_precedes y x = true ->
  time_difference y < time_difference x \/
  (time_difference y == time_difference x /\
   cp_combined_balance x < cp_combined_balance y).
Proof.
  unfold creation_precedes.
  rewrite orb_true_iff, andb_true_iff, !Qltb_iff, Qeq_bool_iff.
  intros [H|[H1 H2]]; [left; exact H|right; split; [exact H1|lra]].
Qed.

Lemma creation_precedes_asym (x y : CreationPattern) :
  creation_precedes y x = true -> creation_precedes x y = false.
Proof.
  intros H. apply creation_precedes_true in H.
  apply creation_precedes_false. unfold spec_creation_order.
  destruct H as [H|[H1 H2]]; [left; exact H|right; split; [exact H1|lra]].
Qed.

Lemma creation_precedes_negtrans (x y z : CreationPattern) :
  creation_precedes y x = false -> creation_precedes z y = false ->
  creation_precedes z x = false.
Proof.
  rewrite !creation_precedes_false. unfold spec_creation_order.
  intros [H1|[H1 H1']] [H2|[H2 H2']].
  - left. lra.
  - left. lra.
  - left. lra.
  - right. split; lra.
Qed.

Lemma within_30_threshold (d : Z) :
  Qle_bool (inject_Z (Z.abs d) / 60) 30 = (Z.abs d <=? 1800)%Z.
Proof.
  destruct (Z.abs d <=? 1800)%Z eqn:E.
  - apply Z.leb_le in E. apply Qle_bool_iff.
    apply Qle_shift_div_r; [reflexivity|].
    change (30 * 60) with (inject_Z 1800). rewrite <- Zle_Qle. exact E.
  - apply Z.leb_gt in E. apply Qle_bool_false.
    apply Qlt_shift_div_l; [reflexivity|].
    change (30 * 60) with (inject_Z 1800). rewrite <- Zlt_Qlt. exact E.
Qed.

Section CreationFacts.

Variable first_tx_timestamp : string -> option Z.

Lemma fetch_loop_lookup (holders : list Holder) (m : gmap string Z) (a : string) :
  fold_left
    (fun wallet_timestamps holder =>
       match first_tx_timestamp (address holder) with
       | Some t => <[address holder := t]> wallet_timestamps
       | None => wallet_timestamps
       end)
    holders m !! a
  = if decide (a ∈ map address holders)
    then match first_tx_timestamp a with Some t => Some t | None => m !! a end
    else m !! a.
Proof.
  revert m. induction holders as [|h holders IH]; intros m; cbn [fold_left map].
  - case_decide as Hin; [|reflexivity].
    apply elem_of_nil in Hin. contradiction.
  - rewrite IH. clear IH.
    destruct (decide (a = address h)) as [->|Hne].
    + rewrite (decide_True (P := address h ∈ address h :: map address holders))
        by set_solver.
      destruct (first_tx_timestamp (address h)) as [t|] eqn:Et.
      * rewrite lookup_insert_eq. case_decide; reflexivity.
      * case_decide; reflexivity.
    + assert (match first_tx_timestamp (address h) with
              | Some t => <[address h := t]> m
              | None => m
              end !! a = m !! a) as ->.
      { destruct (first_tx_timestamp (address h));
          [apply lookup_insert_ne; congruence|reflexivity]. }
      destruct (decide (a ∈ map address holders)) as [Hin|Hnin].
      * rewrite decide_True by set_solver. reflexivity.
      * rewrite decide_False by set_solver. reflexivity.
Qed.

Lemma fetch_timestamps_lookup (holders : list Holder) (h : Holder) :
  In h holders ->
  fetch_timestamps first_tx_timestamp holders !! address h
  = first_tx_timestamp (address h).
Proof.
  intros Hin. unfold fetch_timestamps. rewrite fetch_loop_lookup.
  rewrite decide_True.
  - destruct (first_tx_timestamp (address h)); [reflexivity|apply lookup_empty].
  - apply list_elem_of_In. apply in_map. exact Hin.
Qed.

Lemma compare_pairs_spec (ts : gmap string Z) (wallet1 : Holder) (t1 : Z)
    (rest : list Holder) :
  first_tx_timestamp (address wallet1) = Some t1 ->
  (forall h, In h rest -> ts !! address h = first_tx_timestamp (address h)) ->
  flat_map (compare_pair ts wallet1 t1) rest
  = map (spec_creation_pattern first_tx_timestamp)
      (filter (fun p => spec_within_30_minutes first_tx_timestamp p = true)
         (map (pair wallet1) rest)).
Proof.
  intros H1 Hts. induction rest as [|w2 rest IH]; [reflexivity|].
  cbn [flat_map map]. rewrite filter_cons.
  rewrite IH by (intros h Hh; apply Hts; right; exact Hh). clear IH.
  unfold compare_pair at 1. rewrite (Hts w2) by (left; reflexivity).
  assert (spec_within_30_minutes first_tx_timestamp (wallet1, w2)
          = match first_tx_timestamp (address w2) with
            | Some t2 => (Z.abs (t1 - t2) <=? 1800)%Z
            | None => false
            end) as ->.
  { unfold spec_within_30_minutes. cbn [fst snd]. rewrite H1. reflexivity. }
  destruct (first_tx_timestamp (address w2)) as [t2|] eqn:E2.
  - rewrite within_30_threshold.
    destruct (Z.abs (t1 - t2) <=? 1800)%Z.
    + rewrite decide_True by reflexivity.
      cbn [map app]. f_equal.
      unfold spec_creation_pattern. cbn [fst snd]. rewrite H1, E2. reflexivity.
    + rewrite decide_False by discriminate. reflexivity.
  - rewrite decide_False by discriminate. reflexivity.
Qed.

Lemma unresolved_pairs_spec (wallet1 : Holder) (rest : list Holder) :
  first_tx_timestamp (address wallet1) = None ->
  filter (fun p => spec_within_30_minutes first_tx_timestamp p = true)
    (map (pair wallet1) rest) = [].
Proof.
  intros H1. induction rest as [|w2 rest IH]; [reflexivity|].
  cbn [map]. rewrite filter_cons, IH.
  rewrite decide_False; [reflexivity|].
  unfold spec_within_30_minutes. cbn [fst snd]. rewrite H1. discriminate.
Qed.

Lemma creation_pairs_spec (ts : gmap string Z) (holders : list Holder) :
  (forall h, In h holders -> ts !! address h = first_tx_timestamp (address h)) ->
  creation_pairs ts holders
  = map (spec_creation_pattern first_tx_timestamp)
      (filter (fun p => spec_within_30_minutes first_tx_timestamp p = true)
         (spec_pairs holders)).
Proof.
  intros Hts. induction holders as [|w1 rest IH]; [reflexivity|].
  cbn [creation_pairs spec_pairs].
  rewrite filter_app, map_app.
  rewrite IH by (intros h Hh; apply Hts; right; exact Hh). clear IH.
  rewrite (Hts w1) by (left; reflexivity).
  destruct (first_tx_timestamp (address w1)) as [t1|] eqn:E1.
  - rewrite (compare_pairs_spec ts w1 t1 rest E1)
      by (intros h Hh; apply Hts; right; exact Hh).
    reflexivity.
  - rewrite (unresolved_pairs_spec w1 rest E1). reflexivity.
Qed.

End CreationFacts.

(** C9. The creation-time pattern detector returns exactly the pairs of
    holders whose first-activity timestamps are resolvable and at most 30
    minutes apart, sorted by time difference ascending and then by combined
    balance percent descending; it returns nothing when no pair is within 30
    minutes. *)
Theorem creation_patterns_within_30_minutes
    (first_tx_timestamp : string -> option Z) (holders : list Holder) :
  let result := _analyze_creation_patterns first_tx_timestamp holders in
  let retained :=
    filter (fun p => spec_within_30_minutes first_tx_timestamp p = true)
      (spec_pairs holders) in
  Permutation result (map (spec_creation_pattern first_tx_timestamp) retained) /\
  StronglySorted spec_creation_order result /\
  (retained = [] -> result = []).
Proof.
  intros result retained.
  assert (result
          = py_sorted creation_precedes
              (map (spec_creation_pattern first_tx_timestamp) retained)) as Hres.
  { subst result retained. unfold _analyze_creation_patterns.
    rewrite (creation_pairs_spec first_tx_timestamp); [reflexivity|].
    intros h Hh. apply fetch_timestamps_lookup. exact Hh. }
  split; [|split].
  - rewrite Hres. apply py_sorted_perm.
  - rewrite Hres.
    apply (StronglySorted_weaken (in_order creation_precedes)).
    + intros a b Hab. apply creation_precedes_false. exact Hab.
    + apply (py_sorted_in_order creation_precedes
               creation_precedes_asym creation_precedes_negtrans).
  - intros Hnone. rewrite Hres, Hnone. reflexivity.
Qed.

(** ** Risk score *)

Lemma elevated_iff (x : Q) :
  _get_risk_level x = ElevatedThreat <-> 60 <= x /\ x < 80.
Proof.
  unfold _get_risk_level.
  destruct (Qle_bool 80 x) eqn:E80.
  { apply Qle_bool_iff in E80. split; [discriminate|].
    intros [_ H]. exfalso. apply (Qlt_not_le _ _ H E80). }
  apply Qle_bool_false in E80.
  destruct (Qle_bool 60 x) eqn:E60.
  { apply Qle_bool_iff in E60. tauto. }
  apply Qle_bool_false in E60.
  split.
  - destruct (Qle_bool 40 x); [discriminate|].
    destruct (Qle_bool 20 x); discriminate.
  - intros [H _]. exfalso. apply (Qlt_not_le _ _ E60 H).
Qed.

(** C6. One cluster of size 10 among n = 10 holders scores
    clusterScore = 40, densityScore = 30, varianceScore = 0, total 70, and the
    level is "Elevated Threat", the level of the scores from 60 (included)
    up to 80. *)
Theorem risk_score_full_cluster (cluster : list string) :
  length cluster = 10%nat ->
  let r := _calculate_risk_score [cluster] 10 in
  cluster_score (components r) == 40 /\
  density_score (components r) == 30 /\
  variance_score (components r) == 0 /\
  score r == 70 /\
  risk_level r = ElevatedThreat /\
  risk_level_label (risk_level r) = "Elevated Threat"%string /\
  (forall x, _get_risk_level x = ElevatedThreat <-> 60 <= x /\ x < 80).
Proof.
  intros Hlen r. subst r.
  unfold _calculate_risk_score, risk_score_body.
  cbn [Z.eqb largest fold_left map py_sum length].
  rewrite Hlen.
  repeat (split; [vm_compute; reflexivity|]).
  intros x. apply elevated_iff.
Qed.

Lemma risk_score_full_cluster_witness :
  let r :=
    _calculate_risk_score
      [["a"; "b"; "c"; "d"; "e"; "f"; "g"; "h"; "i"; "j"]%string] 10 in
  score r == 70 /\ risk_level r = ElevatedThreat.
Proof.
  pose proof (risk_score_full_cluster
                ["a"; "b"; "c"; "d"; "e"; "f"; "g"; "h"; "i"; "j"]%string
                eq_refl) as H.
  simpl in H. destruct H as (_ & _ & _ & Hs & Hl & _).
  split; [exact Hs | exact Hl].
Defined.

(** Every division of the [try] block has a divisor that is not zero. *)
Lemma risk_score_body_total (clusters : list (list string)) (total_holders : Z) :
  exists r, risk_score_body clusters total_holders = Ret r.
Proof.
  unfold risk_score_body.
  destruct (total_holders =? 0)%Z eqn:En; [eauto|].
  apply Z.eqb_neq in En.
  rewrite (py_div_nonzero _ (inject_Z total_holders))
      by (apply inject_Z_nonzero; exact En).
  cbn [mbind exc_bind Exc.bind].
  destruct (py_sum_total
              (fun cluster : list string =>
                 py_div (Qof_nat (length cluster) * (Qof_nat (length cluster) - 1)) 2)
              clusters) with (acc := 0) as [tc ->].
  { intros x. rewrite py_div_nonzero by discriminate. eauto. }
  cbn [mbind exc_bind Exc.bind].
  rewrite (py_div_nonzero _ 2) by discriminate.
  cbn [mbind exc_bind Exc.bind].
  set (mp := inject_Z total_holders * (inject_Z total_holders - 1) / 2).
  assert (exists d,
            (if Qlt_le_dec 0 mp then py_div tc mp else Ret 0) = Ret d) as [d ->].
  { destruct (Qlt_le_dec 0 mp) as [Hpos|_]; [|eauto].
    rewrite py_div_nonzero; [eauto|].
    intros H0. rewrite H0 in Hpos. exact (Qlt_irrefl _ Hpos). }
  cbn [mbind exc_bind Exc.bind].
  destruct clusters as [|c cs].
  - cbn [mbind exc_bind Exc.bind].
    rewrite (py_div_nonzero _ (inject_Z total_holders))
      by (apply inject_Z_nonzero; exact En).
    cbn [mbind exc_bind Exc.bind]. eauto.
  - set (sizes := map (fun cluster : list string => Qof_nat (length cluster)) (c :: cs)).
    destruct (py_sum_total Ret sizes) with (acc := 0) as [s1 ->]; [eauto|].
    cbn [mbind exc_bind Exc.bind].
    rewrite (py_div_nonzero _ (Qof_nat (length (c :: cs))))
      by apply Qof_nat_S_nonzero.
    cbn [mbind exc_bind Exc.bind].
    destruct (py_sum_total
                (fun size : Q => Ret ((size - s1 / Qof_nat (length (c :: cs))) ^ 2))
                sizes) with (acc := 0) as [s2 ->]; [eauto|].
    cbn [mbind exc_bind Exc.bind].
    rewrite (py_div_nonzero _ (Qof_nat (length (c :: cs))))
      by apply Qof_nat_S_nonzero.
    cbn [mbind exc_bind Exc.bind].
    rewrite (py_div_nonzero _ (inject_Z total_holders))
      by (apply inject_Z_nonzero; exact En).
    cbn [mbind exc_bind Exc.bind]. eauto.
Qed.

(** C8. With no holder ([n = 0]) the scorer returns the default structure
    (score 0, components 0, level "Unknown"), and for every input no division
    of the scorer divides by zero: its [try] block returns without raising. *)
Theorem risk_score_no_division_by_zero :
  (forall clusters,
     _calculate_risk_score clusters 0 =
     {| score := 0; largest_cluster_size := 0; num_clusters := 0;
        network_density := 0; risk_level := Unknown;
        components :=
          {| cluster_score := 0; density_score := 0; variance_score := 0 |} |}) /\
  (forall clusters total_holders,
     raises (risk_score_body clusters total_holders) = false) /\
  risk_level_label (risk_level _get_default_risk_score) = "Unknown"%string.
Proof.
  split; [|split].
  - intros clusters. reflexivity.
  - intros clusters total_holders.
    destruct (risk_score_body_total clusters total_holders) as [r ->].
    reflexivity.
  - reflexivity.
Qed.

(** ** The entry point *)

Section EntryPointFacts.

Variable creation_step : list Holder -> exc (list CreationPattern).
Variable transaction_step : list Holder -> exc (list TransactionPattern).
Variable recent_step : list Holder -> exc (list RecentPattern).
Variable clusters_step : list Holder -> exc (list (list string)).
Variable risk_step : list (list string) -> Z -> exc RiskScore.

#[local] Abbreviation body :=
  (analyze_body creation_step transaction_step recent_step clusters_step risk_step).
#[local] Abbreviation analyze :=
  (analyze_wallet_connections_with
     creation_step transaction_step recent_step clusters_step risk_step).

Lemma analyze_cases (holders_data : list Holder) :
  (exists e, body holders_data = Raise e /\ analyze holders_data = Ret EmptyDict) \/
  (exists a, body holders_data = Ret (Analysis a) /\
             analyze holders_data = Ret (Analysis a)).
Proof.
  unfold analyze_wallet_connections_with, analyze_body.
  destruct (creation_step _) as [cp|e]; [|left; exists e; split; reflexivity].
  destruct (transaction_step _) as [tp|e]; [|left; exists e; split; reflexivity].
  destruct (recent_step _) as [rp|e]; [|left; exists e; split; reflexivity].
  destruct (clusters_step _) as [cs|e]; [|left; exists e; split; reflexivity].
  cbn [mbind exc_bind Exc.bind].
  destruct (risk_step _ _) as [rs|e]; [|left; exists e; split; reflexivity].
  right. eexists. split; reflexivity.
Qed.

End EntryPointFacts.

(** C10. [analyze_wallet_connections] never lets an exception reach its
    caller: whatever its internal steps do it returns a dict; if a step
    raises, the dict is [{}], which the report treats as "no connection
    section"; if every step returns, the dict holds the risk score, the
    clusters, the creation patterns and the transaction patterns. *)
Theorem analyze_wallet_connections_never_raises
    (creation_step : list Holder -> exc (list CreationPattern))
    (transaction_step : list Holder -> exc (list TransactionPattern))
    (recent_step : list Holder -> exc (list RecentPattern))
    (clusters_step : list Holder -> exc (list (list string)))
    (risk_step : list (list string) -> Z -> exc RiskScore)
    (holders_data : list Holder) :
  let user_holders := filter (fun h => is_user_holder h = true) holders_data in
  let result :=
    analyze_wallet_connections_with
      creation_step transaction_step recent_step clusters_step risk_step
      holders_data in
  raises result = false /\
  (raises (creation_step user_holders) = true \/
   raises (transaction_step user_holders) = true \/
   raises (recent_step user_holders) = true \/
   raises (clusters_step user_holders) = true \/
   (exists clusters,
      clusters_step user_holders = Ret clusters /\
      raises (risk_step clusters (Z.of_nat (length user_holders))) = true) ->
   result = Ret EmptyDict /\
   (forall analysis_type, sends_connection_section analysis_type EmptyDict = false)) /\
  (forall cp tp rp cs rs,
     creation_step user_holders = Ret cp ->
     transaction_step user_holders = Ret tp ->
     recent_step user_holders = Ret rp ->
     clusters_step user_holders = Ret cs ->
     risk_step cs (Z.of_nat (length user_holders)) = Ret rs ->
     result =
     Ret (Analysis {|
       ca_risk_score := rs;
       ca_clusters := cs;
       ca_creation_patterns := cp;
       ca_transaction_patterns :=
         map PTransaction tp ++ map PRecent rp |})).
Proof.
  intros user_holders result. subst result.
  split; [|split].
  - destruct (analyze_cases creation_step transaction_step recent_step
                clusters_step risk_step holders_data)
      as [(e & _ & ->)|(a & _ & ->)]; reflexivity.
  - intros Hraise.
    split; [|intros analysis_type; unfold sends_connection_section;
             apply andb_false_r].
    unfold analyze_wallet_connections_with, analyze_body.
    fold user_holders.
    destruct (creation_step user_holders) as [cp|e]; [|reflexivity].
    destruct (transaction_step user_holders) as [tp|e]; [|reflexivity].
    destruct (recent_step user_holders) as [rp|e]; [|reflexivity].
    destruct (clusters_step user_holders) as [cs|e]; [|reflexivity].
    cbn [mbind exc_bind Exc.bind].
    destruct Hraise as [H|[H|[H|[H|(cs' & Hcs & H)]]]]; try discriminate H.
    injection Hcs as <-.
    destruct (risk_step cs _) as [rs|e]; [discriminate H|reflexivity].
  - intros cp tp rp cs rs Hcp Htp Hrp Hcs Hrs.
    unfold analyze_wallet_connections_with, analyze_body.
    fold user_holders.
    rewrite Hcp, Htp, Hrp, Hcs. cbn [mbind exc_bind Exc.bind].
    rewrite Hrs. cbn [mbind exc_bind Exc.bind mret exc_ret try_except].
    destruct rp; [rewrite app_nil_r|]; reflexivity.
Qed.

(** ** The analyzer on sample batches *)

Example remove_plus_1000 : remove_plus "1000+" = "1000"%string.
Proof. reflexivity. Qed.

(** Three equal holders: with the analyzer's own weight (1.08 for each pair)
    the first one seeds a cluster that takes the other two. *)
Example find_clusters_equal_holders :
  _find_clusters no_int [sample_holder "A"; sample_holder "B"; sample_holder "C"]
  = [["A"; "B"; "C"]]%string.
Proof. vm_compute. reflexivity. Qed.

(** First transactions at 0 s, 600 s and 10000 s: only A and B are within 30
    minutes of each other. *)
Example creation_patterns_sample :
  map cp_wallets
    (_analyze_creation_patterns
       (fun a => if String.eqb a "A" then Some 0%Z
                 else if String.eqb a "B" then Some 600%Z
                 else Some 10000%Z)
       [sample_holder "A"; sample_holder "B"; sample_holder "C"])
  = [("A", "B")]%string.
Proof. vm_compute. reflexivity. Qed.

(** No cluster among 10 holders: score 0, "Negligible Threat". *)
Example risk_score_no_cluster :
  score (_calculate_risk_score [] 10) == 0 /\
  risk_level (_calculate_risk_score [] 10) = NegligibleThreat.
Proof. split; reflexivity. Qed.

(** When the recent-transaction step raises, the entry point
    returns [{}]. *)
Example analyze_wallet_connections_failed_step :
  analyze_wallet_connections no_int (fun _ => None)
    (fun _ => Raise (OtherError "timeout"))
    [sample_holder "A"; sample_holder "B"]
  = Ret EmptyDict.
Proof. reflexivity. Qed.

End AnalyzerFacts.

(** * Properties of the analysis queue *)

Module QueueFacts.

Import Queue Inputs.

Local Open Scope Z_scope.

(** ** The ledger *)

Lemma use_credit_enough (ledger : gmap Z Z) (user_id amount c : Z) :
  ledger !! user_id = Some c -> amount <= c ->
  use_credit ledger user_id amount = (true, <[user_id := c - amount]> ledger).
Proof.
  intros Hc Hle. unfold use_credit. rewrite Hc.
  destruct (amount <=? c) eqn:E; [reflexivity|].
  apply Z.leb_gt in E. lia.
Qed.

Lemma credits_required_pos (analysis_type : string) :
  0 < credits_required analysis_type.
Proof.
  unfold credits_required. destruct (String.eqb analysis_type "deep"); lia.
Qed.

(** ** Admission *)

(** With a balance below the cost the check rejects and only sends a
    message. *)
Lemma check_and_deduct_insufficient (chat_id user_id : Z) (analysis_type : string)
    (s : State) :
  (forall c, ledger s !! user_id = Some c -> c < credits_required analysis_type) ->
  exists m, check_and_deduct chat_id user_id analysis_type s
            = inl (send_message chat_id m s).
Proof.
  intros Hlow. unfold check_and_deduct, get_user.
  destruct (ledger s !! user_id) as [c|] eqn:Ec; [|eauto].
  specialize (Hlow c eq_refl). apply Z.ltb_lt in Hlow. rewrite Hlow. eauto.
Qed.

(** With a balance that covers the cost the check debits it. *)
Lemma check_and_deduct_enough (chat_id user_id : Z) (analysis_type : string)
    (s : State) (c : Z) :
  ledger s !! user_id = Some c -> credits_required analysis_type <= c ->
  check_and_deduct chat_id user_id analysis_type s
  = inr (set_ledger (<[user_id := c - credits_required analysis_type]> (ledger s)) s).
Proof.
  intros Hc Hle. unfold check_and_deduct, get_user. rewrite Hc.
  destruct (c <? credits_required analysis_type) eqn:E.
  { apply Z.ltb_lt in E. lia. }
  rewrite (use_credit_enough _ _ _ c Hc Hle). reflexivity.
Qed.

Lemma enqueue_task_insufficient (token_address : string) (chat_id user_id : Z)
    (analysis_type : string) (s : State) :
  (forall c, ledger s !! user_id = Some c -> c < credits_required analysis_type) ->
  let r := enqueue_task token_address chat_id user_id analysis_type s in
  fst r = false /\
  ledger (snd r) = ledger s /\
  queue (snd r) = queue s /\
  active_tokens (snd r) = active_tokens s /\
  analysis_cache (snd r) = analysis_cache s.
Proof.
  intros Hlow r. subst r. unfold enqueue_task.
  set (s1 := match queue s with
             | [] => s
             | _ => send_message chat_id (MsgQueued token_address analysis_type) s
             end).
  assert (ledger s1 = ledger s /\ queue s1 = queue s /\
          active_tokens s1 = active_tokens s /\
          analysis_cache s1 = analysis_cache s) as (Hl & Hq & Ha & Hc).
  { subst s1. destruct (queue s) eqn:E; repeat split; try reflexivity; exact E. }
  destruct (check_and_deduct_insufficient chat_id user_id analysis_type s1)
    as [m ->].
  { rewrite Hl. exact Hlow. }
  cbn. repeat split; assumption.
Qed.







(** ** A second kind for a token in flight *)

(** A request for a token in flight with another kind runs the balance check
    and the deduction twice, and stores a fresh record over the one that was
    there. *)
Lemma add_task_other_kind (token_address : string) (chat_id user_id : Z)
    (analysis_type : string) (s : State) (record : InFlight) (c : Z) :
  active_tokens s !! token_address = Some record ->
  if_analysis_type record <> analysis_type ->
  ledger s !! user_id = Some c ->
  2 * credits_required analysis_type <= c ->
  let r := add_task token_address chat_id user_id analysis_type s in
  fst r = true /\
  ledger (snd r) !! user_id = Some (c - 2 * credits_required analysis_type) /\
  active_tokens (snd r) !! token_address
  = Some (new_record chat_id user_id analysis_type).
Proof.
  intros Hrec Htype Hc Hle r. subst r.
  pose proof (credits_required_pos analysis_type) as Hpos.
  unfold add_task. rewrite Hrec.
  destruct (String.eqb (if_analysis_type record) analysis_type) eqn:Et.
  { apply String.eqb_eq in Et. contradiction. }
  rewrite (check_and_deduct_enough chat_id user_id analysis_type s c Hc) by lia.
  set (s0 := set_ledger _ s).
  unfold enqueue_task.
  set (s1 := match queue s0 with
             | [] => s0
             | _ => send_message chat_id (MsgQueued token_address analysis_type) s0
             end).
  assert (ledger s1 = <[user_id := c - credits_required analysis_type]> (ledger s))
    as Hl.
  { subst s1 s0. destruct (queue _); reflexivity. }
  rewrite (check_and_deduct_enough chat_id user_id analysis_type s1
             (c - credits_required analysis_type))
    by (rewrite ?Hl, ?lookup_insert_eq; (reflexivity || lia)).
  cbn [set_ledger set_queue set_active_tokens processing queue ledger
       active_tokens].
  destruct (processing s1); cbn; rewrite ?Hl;
    (split; [reflexivity|split]);
    rewrite lookup_insert_eq; f_equal; lia.
Qed.

(** C7 fails on the code. User 1's quick analysis of T is in flight; user 2,
    holding 10 credits, asks for a deep analysis of T. The request is
    admitted, but the record of the quick analysis is replaced by a record
    that holds user 2 only, and user 2 pays the deep cost twice. *)
Theorem other_kind_replaces_record :
  let r := add_task "T" 102 2 "deep" quick_in_flight in
  active_tokens quick_in_flight !! "T" = Some (new_record 101 1 "quick") /\
  fst r = true /\
  active_tokens (snd r) !! "T" = Some (new_record 102 2 "deep") /\
  active_tokens (snd r) !! "T" <> active_tokens quick_in_flight !! "T" /\
  balance quick_in_flight 2 = 10 /\
  balance (snd r) 2 = 0.
Proof.
  cbv zeta.
  assert (active_tokens quick_in_flight !! "T" = Some (new_record 101 1 "quick"))
    as H0 by (vm_compute; reflexivity).
  assert (active_tokens (add_task "T" 102 2 "deep" quick_in_flight).2 !! "T"
          = Some (new_record 102 2 "deep")) as H1 by (vm_compute; reflexivity).
  split; [exact H0|]. split; [vm_compute; reflexivity|].
  split; [exact H1|]. split; [|split; vm_compute; reflexivity].
  rewrite H0, H1. intros H.
  pose proof (f_equal (fun o : option InFlight => if_analysis_type <$> o) H) as H'.
  discriminate H'.
Qed.

(** ** Failure of a task *)

(** Entering the failure handler a second time refunds nothing more. *)
Lemma refund_on_failure_twice (task : Task) (e e' : exn) (s : State) :
  ledger (fst (refund_on_failure task e' (fst (refund_on_failure task e s))))
  = ledger (fst (refund_on_failure task e s)).
Proof.
  remember (refund_on_failure task e s) as r eqn:Hr.
  unfold refund_on_failure in Hr.
  destruct (active_tokens s !! token_address task) as [record|] eqn:Er.
  - destruct (decide (user_id task ∈ credits_deducted record)) as [Hin|Hnin].
    + destruct (add_credits (ledger s) (user_id task)
                  (credits_required (analysis_type task))) as [ok ledger'].
      subst r. cbn [fst]. unfold refund_on_failure.
      cbn [send_message set_active_tokens set_ledger active_tokens ledger].
      rewrite lookup_insert_eq. cbn [credits_deducted].
      rewrite decide_False by set_solver. reflexivity.
    + subst r. cbn [fst]. unfold refund_on_failure. rewrite Er.
      rewrite decide_False by exact Hnin. reflexivity.
  - subst r. cbn [fst]. unfold refund_on_failure. rewrite Er. reflexivity.
Qed.

(** A task whose record is still the one its admission stored: on failure the
    requester gets the cost back, once, and the record is removed. *)
Lemma worker_finish_refunds (task : Task) (error : string) (s : State) (c : Z) :
  current_task s = Some task ->
  active_tokens s !! token_address task
  = Some (new_record (chat_id task) (user_id task) (analysis_type task)) ->
  ledger s !! user_id task = Some c ->
  let s' := worker_finish (AnalysisFailed error) s in
  ledger s' = <[user_id task := c + credits_required (analysis_type task)]> (ledger s) /\
  active_tokens s' !! token_address task = None.
Proof.
  intros Hcur Hrec Hc s'. subst s'.
  pose proof (credits_required_pos (analysis_type task)) as Hpos.
  unfold worker_finish. rewrite Hcur.
  unfold refund_on_failure. rewrite Hrec.
  cbn [credits_deducted new_record].
  rewrite decide_True by set_solver.
  unfold add_credits. rewrite Hc.
  destruct (credits_required (analysis_type task) <=? 0) eqn:E.
  { apply Z.leb_le in E. lia. }
  cbn. split; [reflexivity|]. apply lookup_delete_eq.
Qed.

(** C1 fails on the code. User 1 (1 credit) has a quick analysis of T in
    flight; user 2 (10 credits) is admitted for a deep analysis of T, which
    debits user 2 twice and replaces the record. The quick analysis fails:
    the record names user 2 as debited, user 2 gets nothing back, and neither
    does user 1, whose task it was. The deep analysis fails too: the worker
    has made it a record with nobody debited, so again nobody is refunded.
    11 credits were taken and none returned; no refund message was sent. *)
Theorem failed_tasks_not_refunded :
  (credits_deducted <$> active_tokens deep_submitted !! "T") = Some {[2]} /\
  balance (init sample_ledger) 1 = 1 /\
  balance (init sample_ledger) 2 = 10 /\
  balance deep_submitted 1 = 0 /\
  balance deep_submitted 2 = 0 /\
  balance both_failed 1 = 0 /\
  balance both_failed 2 = 0 /\
  active_tokens both_failed !! "T" = None /\
  outbox both_failed
  = [(101, MsgStarting "T" "quick" 10);
     (101, MsgTaskError "provider down");
     (102, MsgStarting "T" "deep" 50);
     (102, MsgTaskError "provider down")].
Proof.
  repeat split; vm_compute; reflexivity.
Qed.

End QueueFacts.

(** * Further properties of the wallet connection analyzer *)

Module AnalyzerExtras.
Import WalletAnalyzer Inputs AnalyzerFacts MoreInputs.
Local Open Scope Q_scope.

Lemma tx_ratio_comm (a b : Z) : tx_ratio a b = tx_ratio b a.
Proof.
  unfold tx_ratio. rewrite (Z.max_comm a b), (Z.min_comm a b). reflexivity.
Qed.

Lemma tx_similarity_sym (int_of_str : string -> option Z) (wallet1 wallet2 : Holder) :
  _calculate_tx_similarity int_of_str wallet1 wallet2
  = _calculate_tx_similarity int_of_str wallet2 wallet1.
Proof.
  unfold _calculate_tx_similarity, tx_similarity_body.
  destruct (_clean_tx_count _ (total_tx_count (base_chain (activity_info wallet1))))
    as [b1|];
  destruct (_clean_tx_count _ (total_tx_count (base_chain (activity_info wallet2))))
    as [b2|];
  destruct (_clean_tx_count _ (total_tx_count (ethereum (activity_info wallet1))))
    as [e1|];
  destruct (_clean_tx_count _ (total_tx_count (ethereum (activity_info wallet2))))
    as [e2|]; cbn [mbind exc_bind Exc.bind]; try reflexivity.
  rewrite (tx_ratio_comm b1 b2), (tx_ratio_comm e1 e2).
  rewrite (andb_comm (is_active_overall (activity_info wallet1))).
  reflexivity.
Qed.

(** X1. The connection weight does not depend on the order of the two
    wallets. *)
Theorem connection_weight_sym (int_of_str : string -> option Z)
    (wallet1 wallet2 : Holder) :
  _calculate_connection_weight int_of_str wallet1 wallet2
  = _calculate_connection_weight int_of_str wallet2 wallet1.
Proof.
  unfold _calculate_connection_weight.
  rewrite (tx_similarity_sym int_of_str wallet1 wallet2).
  rewrite (Qabs_Qminus (balance_percentage wallet1) (balance_percentage wallet2)).
  replace (Z.abs (wallet_age_days (age_info wallet1) - wallet_age_days (age_info wallet2)))
    with (Z.abs (wallet_age_days (age_info wallet2) - wallet_age_days (age_info wallet1)))
    by lia.
  reflexivity.
Qed.


(** ** Clusters *)

Section ClusterFacts.

Variable w : Holder -> Holder -> Q.

Lemma grow_cluster_spec (wallet1 : Holder) (rest : list Holder)
    (cur : list string) (used : gset string) :
  exists added,
    grow_cluster w wallet1 rest cur used = (cur ++ added, used ∪ list_to_set added) /\
    NoDup added /\
    (forall a, a ∈ added ->
       (a ∉ used) /\ exists h, h ∈ rest /\ address h = a /\ 0.8 <= w wallet1 h).
Proof.
  revert cur used. induction rest as [|wallet2 rest IH]; intros cur used.
  - exists []. cbn [grow_cluster]. rewrite app_nil_r.
    split; [f_equal; set_solver|]. split; [constructor|].
    intros a Ha. apply elem_of_nil in Ha. contradiction.
  - cbn [grow_cluster].
    destruct (decide (address wallet2 ∈ used)) as [Hin|Hnin].
    + destruct (IH cur used) as (added & Heq & Hnd & Hadd).
      exists added. split; [exact Heq|]. split; [exact Hnd|].
      intros a Ha. destruct (Hadd a Ha) as (Hu & h & Hh & Hah & Hw).
      split; [exact Hu|]. exists h. split; [set_solver|]. split; assumption.
    + destruct (Qle_bool 0.8 (w wallet1 wallet2)) eqn:Ew.
      * destruct (IH (cur ++ [address wallet2]) (used ∪ {[address wallet2]}))
          as (added & Heq & Hnd & Hadd).
        exists (address wallet2 :: added).
        split.
        { rewrite Heq. f_equal.
          - rewrite <- app_assoc. reflexivity.
          - set_solver. }
        split.
        { constructor; [|exact Hnd].
          intros Hin. destruct (Hadd _ Hin) as (Hu & _). set_solver. }
        intros a Ha. apply elem_of_cons in Ha. destruct Ha as [->|Ha].
        { split; [exact Hnin|]. exists wallet2.
          split; [set_solver|]. split; [reflexivity|].
          apply Qle_bool_iff. exact Ew. }
        destruct (Hadd a Ha) as (Hu & h & Hh & Hah & Hw).
        split; [set_solver|]. exists h. split; [set_solver|]. split; assumption.
      * destruct (IH cur used) as (added & Heq & Hnd & Hadd).
        exists added. split; [exact Heq|]. split; [exact Hnd|].
        intros a Ha. destruct (Hadd a Ha) as (Hu & h & Hh & Hah & Hw).
        split; [exact Hu|]. exists h. split; [set_solver|]. split; assumption.
Qed.

Lemma cluster_ok_weaken (h0 : Holder) (holders : list Holder) (c : list string) :
  cluster_ok w holders c -> cluster_ok w (h0 :: holders) c.
Proof.
  intros (seed & members & -> & Hne & Hseed & Hm).
  exists seed, members. split; [reflexivity|]. split; [exact Hne|].
  split; [set_solver|].
  intros a Ha. destruct (Hm a Ha) as (h & Hh & Hah & Hw).
  exists h. split; [set_solver|]. split; assumption.
Qed.

Lemma cluster_loop_spec (holders : list Holder) (clusters : list (list string))
    (used : gset string) :
  exists new,
    cluster_loop w holders clusters used = clusters ++ new /\
    NoDup (concat new) /\
    (forall a, a ∈ concat new -> a ∉ used) /\
    Forall (cluster_ok w holders) new.
Proof.
  revert clusters used.
  induction holders as [|wallet1 rest IH]; intros clusters used.
  - exists []. cbn [cluster_loop]. rewrite app_nil_r.
    split; [reflexivity|]. split; [constructor|].
    split; [|constructor].
    intros a Ha. apply elem_of_nil in Ha. contradiction.
  - cbn [cluster_loop].
    destruct (decide (address wallet1 ∈ used)) as [Hin|Hnin].
    + destruct (IH clusters used) as (new & Heq & Hnd & Hu & Hok).
      exists new. split; [exact Heq|]. split; [exact Hnd|].
      split; [exact Hu|].
      eapply Forall_impl; [exact Hok|]. intros c. apply cluster_ok_weaken.
    + destruct (grow_cluster_spec wallet1 rest [address wallet1]
                  (used ∪ {[address wallet1]}))
        as (added & Hg & Hnda & Hadd).
      rewrite Hg.
      set (used' := used ∪ {[address wallet1]} ∪ list_to_set added).
      destruct added as [|a0 added].
      * cbn [app length Nat.ltb Nat.leb].
        destruct (IH clusters used') as (new & Heq & Hnd & Hu & Hok).
        exists new. split; [exact Heq|]. split; [exact Hnd|].
        split.
        { intros a Ha. specialize (Hu a Ha). set_solver. }
        eapply Forall_impl; [exact Hok|]. intros c. apply cluster_ok_weaken.
      * assert ((1 <? length ([address wallet1] ++ a0 :: added))%nat = true) as ->.
        { apply Nat.ltb_lt. cbn. lia. }
        assert (a0 :: added <> []) as Hne by discriminate.
        remember (a0 :: added) as add eqn:Eadd. clear Eadd a0 added.
        change ([address wallet1] ++ add) with (address wallet1 :: add).
        destruct (IH (clusters ++ [address wallet1 :: add]) used')
          as (new & Heq & Hnd & Hu & Hok).
        exists ((address wallet1 :: add) :: new).
        split; [rewrite Heq, <- app_assoc; reflexivity|].
        cbn [concat]. rewrite <- app_comm_cons.
        split.
        { constructor.
          - intros Hin. apply elem_of_app in Hin. destruct Hin as [Hin|Hin].
            + destruct (Hadd _ Hin) as (Hx & _). set_solver.
            + specialize (Hu _ Hin). set_solver.
          - apply NoDup_app. split; [exact Hnda|]. split; [|exact Hnd].
            intros a Ha Ha'. specialize (Hu a Ha'). set_solver. }
        split.
        { intros a Ha.
          apply elem_of_cons in Ha. destruct Ha as [->|Ha]; [exact Hnin|].
          apply elem_of_app in Ha. destruct Ha as [Ha|Ha].
          - destruct (Hadd a Ha) as (Hx & _). set_solver.
          - specialize (Hu a Ha). set_solver. }
        constructor.
        { exists wallet1, add. split; [reflexivity|].
          split; [exact Hne|]. split; [set_solver|].
          intros a Ha. destruct (Hadd a Ha) as (_ & h & Hh & Hah & Hw).
          exists h. split; [set_solver|]. split; assumption. }
        eapply Forall_impl; [exact Hok|]. intros c. apply cluster_ok_weaken.
Qed.

End ClusterFacts.

Lemma concat_perm {A : Type} (l l' : list (list A)) :
  Permutation l l' -> Permutation (concat l) (concat l').
Proof.
  induction 1 as [|x l l' _ IH|x y l|l l' l'' _ IH1 _ IH2]; cbn [concat].
  - reflexivity.
  - rewrite IH. reflexivity.
  - rewrite !app_assoc. rewrite (Permutation_app_comm y x). reflexivity.
  - rewrite IH1. exact IH2.
Qed.

Lemma longer_asym (x y : list string) : longer y x = true -> longer x y = false.
Proof.
  unfold longer. rewrite Nat.ltb_lt, Nat.ltb_ge. lia.
Qed.

Lemma longer_negtrans (x y z : list string) :
  longer y x = false -> longer z y = false -> longer z x = false.
Proof.
  unfold longer. rewrite !Nat.ltb_ge. lia.
Qed.

(** X2. No address is put in two clusters, or twice in one. *)
Theorem clusters_disjoint (w : Holder -> Holder -> Q) (holders : list Holder) :
  NoDup (concat (find_clusters_with w holders)).
Proof.
  unfold find_clusters_with.
  destruct (cluster_loop_spec w holders [] ∅) as (new & Heq & Hnd & _ & _).
  rewrite Heq. cbn [app].
  rewrite (concat_perm _ _ (py_sorted_perm longer new)). exact Hnd.
Qed.

Lemma find_clusters_with_ok (w : Holder -> Holder -> Q) (holders : list Holder) :
  Forall (cluster_ok w holders) (find_clusters_with w holders).
Proof.
  unfold find_clusters_with.
  destruct (cluster_loop_spec w holders [] ∅) as (new & Heq & _ & _ & Hok).
  rewrite Heq. cbn [app].
  rewrite (py_sorted_perm longer new). exact Hok.
Qed.

(** X3. Every cluster starts with a seed of the batch and has at least one
    more member; each member is the address of a holder of the batch whose
    weight against the seed reaches 0.8. *)
Theorem clusters_well_formed (w : Holder -> Holder -> Q) (holders : list Holder) :
  Forall (cluster_ok w holders) (find_clusters_with w holders).
Proof. exact (find_clusters_with_ok w holders). Qed.

(** X4. The clusters come largest first. *)
Theorem clusters_sorted_by_size (w : Holder -> Holder -> Q) (holders : list Holder) :
  StronglySorted (fun c1 c2 => (length c2 <= length c1)%nat)
    (find_clusters_with w holders).
Proof.
  unfold find_clusters_with.
  apply (StronglySorted_weaken (in_order longer)).
  - intros a b. unfold in_order, longer. rewrite Nat.ltb_ge. lia.
  - apply (py_sorted_in_order longer longer_asym longer_negtrans).
Qed.

(** ** Risk score *)

Lemma py_sum_nonneg {A : Type} (f : A -> exc Q) (l : list A) :
  (forall x v, f x = Ret v -> 0 <= v) ->
  forall acc s, 0 <= acc -> py_sum f l acc = Ret s -> 0 <= s.
Proof.
  intros Hf. induction l as [|x l IH]; intros acc s Hacc Hs; cbn [py_sum] in Hs.
  - injection Hs as <-. exact Hacc.
  - destruct (f x) as [v|e] eqn:Ev; [|discriminate Hs].
    cbn [mbind exc_bind Exc.bind] in Hs.
    apply (IH (acc + v) s); [|exact Hs].
    specialize (Hf x v Ev). lra.
Qed.

Lemma Qof_nat_nonneg (k : nat) : 0 <= Qof_nat k.
Proof.
  unfold Qof_nat. change 0 with (inject_Z 0). rewrite <- Zle_Qle. lia.
Qed.

Lemma pairs_nonneg (k : nat) : 0 <= Qof_nat k * (Qof_nat k - 1) / 2.
Proof.
  apply Qle_shift_div_l; [reflexivity|]. rewrite Qmult_0_l.
  destruct k as [|k].
  - unfold Qof_nat. cbn. discriminate.
  - apply Qmult_le_0_compat; [apply Qof_nat_nonneg|].
    unfold Qof_nat. change 1 with (inject_Z 1).
    unfold Qminus. rewrite <- inject_Z_opp, <- inject_Z_plus.
    change 0 with (inject_Z 0). rewrite <- Zle_Qle. lia.
Qed.

(** The value the [try] block returns for [total_holders <> 0], with the
    three ratios that feed the components. *)
Lemma risk_score_body_shape (clusters : list (list string)) (total_holders : Z) :
  total_holders <> 0%Z ->
  exists cluster_ratio density v,
    risk_score_body clusters total_holders
    = Ret {|
        score :=
          Qmin (Qmin (cluster_ratio * 40) 40 + Qmin (density * 30) 30
                + Qmin (v * 30) 30) 100;
        largest_cluster_size := largest clusters;
        num_clusters := length clusters;
        network_density := density;
        risk_level :=
          _get_risk_level
            (Qmin (cluster_ratio * 40) 40 + Qmin (density * 30) 30
             + Qmin (v * 30) 30);
        components := {|
          cluster_score := Qmin (cluster_ratio * 40) 40;
          density_score := Qmin (density * 30) 30;
          variance_score := Qmin (v * 30) 30 |} |} /\
    ((0 < total_holders)%Z -> 0 <= cluster_ratio /\ 0 <= density /\ 0 <= v).
Proof.
  intros En. unfold risk_score_body.
  destruct (total_holders =? 0)%Z eqn:E0; [apply Z.eqb_eq in E0; contradiction|].
  assert (~ inject_Z total_holders == 0) as Hn0 by (apply inject_Z_nonzero; exact En).
  rewrite (py_div_nonzero _ (inject_Z total_holders)) by exact Hn0.
  cbn [mbind exc_bind Exc.bind].
  destruct (py_sum_total
              (fun cluster : list string =>
                 py_div (Qof_nat (length cluster) * (Qof_nat (length cluster) - 1)) 2)
              clusters) with (acc := 0) as [tc Htc].
  { intros x. rewrite py_div_nonzero by discriminate. eauto. }
  assert (0 <= tc) as Htc0.
  { eapply (py_sum_nonneg _ clusters); [|apply Qle_refl|exact Htc].
    intros x v Hv. cbv beta in Hv. rewrite py_div_nonzero in Hv by discriminate.
    injection Hv as <-. apply pairs_nonneg. }
  rewrite Htc. cbn [mbind exc_bind Exc.bind].
  rewrite (py_div_nonzero _ 2) by discriminate.
  cbn [mbind exc_bind Exc.bind].
  set (mp := inject_Z total_holders * (inject_Z total_holders - 1) / 2).
  assert (exists d,
            (if Qlt_le_dec 0 mp then py_div tc mp else Ret 0) = Ret d /\ 0 <= d)
    as (d & -> & Hd).
  { destruct (Qlt_le_dec 0 mp) as [Hpos|_]; [|exists 0; split; [reflexivity|apply Qle_refl]].
    rewrite py_div_nonzero.
    - exists (tc / mp). split; [reflexivity|].
      apply Qle_shift_div_l; [exact Hpos|]. rewrite Qmult_0_l. exact Htc0.
    - intros H0. rewrite H0 in Hpos. exact (Qlt_irrefl _ Hpos). }
  cbn [mbind exc_bind Exc.bind].
  assert (forall x, (0 < total_holders)%Z -> 0 <= x -> 0 <= x / inject_Z total_holders)
    as Hdivn.
  { intros x Hpos Hx. apply Qle_shift_div_l.
    - change 0 with (inject_Z 0). rewrite <- Zlt_Qlt. exact Hpos.
    - rewrite Qmult_0_l. exact Hx. }
  destruct clusters as [|c cs].
  - cbn [mbind exc_bind Exc.bind].
    rewrite (py_div_nonzero _ (inject_Z total_holders)) by exact Hn0.
    cbn [mbind exc_bind Exc.bind].
    eexists _, d, _. split; [reflexivity|].
    intros Hpos. split; [|split; [exact Hd|]].
    + apply Hdivn; [exact Hpos|apply Qof_nat_nonneg].
    + apply Hdivn; [exact Hpos|apply Qle_refl].
  - set (sizes := map (fun cluster : list string => Qof_nat (length cluster)) (c :: cs)).
    destruct (py_sum_total Ret sizes) with (acc := 0) as [s1 ->]; [eauto|].
    cbn [mbind exc_bind Exc.bind].
    rewrite (py_div_nonzero _ (Qof_nat (length (c :: cs))))
      by apply Qof_nat_S_nonzero.
    cbn [mbind exc_bind Exc.bind].
    destruct (py_sum_total
                (fun size : Q => Ret ((size - s1 / Qof_nat (length (c :: cs))) ^ 2))
                sizes) with (acc := 0) as [s2 Hs2]; [eauto|].
    assert (0 <= s2) as Hs20.
    { eapply (py_sum_nonneg _ sizes); [|apply Qle_refl|exact Hs2].
      intros x v Hv. cbv beta in Hv. injection Hv as <-. apply Qsqr_nonneg. }
    rewrite Hs2. cbn [mbind exc_bind Exc.bind].
    rewrite (py_div_nonzero _ (Qof_nat (length (c :: cs))))
      by apply Qof_nat_S_nonzero.
    cbn [mbind exc_bind Exc.bind].
    rewrite (py_div_nonzero _ (inject_Z total_holders)) by exact Hn0.
    cbn [mbind exc_bind Exc.bind].
    eexists _, d, _. split; [reflexivity|].
    intros Hpos. split; [|split; [exact Hd|]].
    + apply Hdivn; [exact Hpos|apply Qof_nat_nonneg].
    + apply Hdivn; [exact Hpos|].
      apply Qle_shift_div_l; [|rewrite Qmult_0_l; exact Hs20].
      unfold Qof_nat. change 0 with (inject_Z 0). rewrite <- Zlt_Qlt.
      cbn [length]. lia.
Qed.

Lemma Qmin_cap_bounds (x cap : Q) :
  0 <= x -> 0 <= cap -> 0 <= Qmin x cap /\ Qmin x cap <= cap.
Proof.
  intros Hx Hc. split; [apply Q.min_glb; assumption|apply Q.le_min_r].
Qed.

(** X5. For a batch of [n >= 0] holders every component stays within its cap
    (40, 30, 30), the score lies in [0, 100], and the score is the sum of the
    three components: the cap at 100 never cuts anything off. *)
Theorem risk_score_bounds (clusters : list (list string)) (total_holders : Z) :
  (0 <= total_holders)%Z ->
  let r := _calculate_risk_score clusters total_holders in
  (0 <= cluster_score (components r) /\ cluster_score (components r) <= 40) /\
  (0 <= density_score (components r) /\ density_score (components r) <= 30) /\
  (0 <= variance_score (components r) /\ variance_score (components r) <= 30) /\
  (0 <= score r /\ score r <= 100) /\
  score r == cluster_score (components r) + density_score (components r)
             + variance_score (components r).
Proof.
  intros Hn r. subst r. unfold _calculate_risk_score.
  destruct (Z.eq_dec total_holders 0) as [->|Hne].
  { cbn. repeat split; try discriminate. }
  destruct (risk_score_body_shape clusters total_holders Hne)
    as (cr & d & v & -> & Hpos).
  destruct Hpos as (Hcr & Hd & Hv); [lia|].
  cbn [score components cluster_score density_score variance_score].
  destruct (Qmin_cap_bounds (cr * 40) 40) as [Hc0 Hc1]; [lra|discriminate|].
  destruct (Qmin_cap_bounds (d * 30) 30) as [Hd0 Hd1]; [lra|discriminate|].
  destruct (Qmin_cap_bounds (v * 30) 30) as [Hv0 Hv1]; [lra|discriminate|].
  assert (Qmin (Qmin (cr * 40) 40 + Qmin (d * 30) 30 + Qmin (v * 30) 30) 100
          == Qmin (cr * 40) 40 + Qmin (d * 30) 30 + Qmin (v * 30) 30) as Hs.
  { apply Q.min_l. lra. }
  repeat split; try assumption; try (rewrite Hs; lra).
Qed.

Lemma risk_score_bounds_witness :
  0 <= score (_calculate_risk_score [["a"; "b"]; ["c"; "d"; "e"]]%string 7) /\
  score (_calculate_risk_score [["a"; "b"]; ["c"; "d"; "e"]]%string 7) <= 100.
Proof.
  pose proof (risk_score_bounds [["a"; "b"]; ["c"; "d"; "e"]]%string 7) as H.
  cbv zeta in H. destruct H as (_ & _ & _ & Hs & _); [discriminate|].
  exact Hs.
Defined.

Lemma get_risk_level_Qeq (a b : Q) : a == b -> _get_risk_level a = _get_risk_level b.
Proof.
  intros H. unfold _get_risk_level.
  rewrite !(Qleb_comp _ _ (Qeq_refl _) a b H). reflexivity.
Qed.

(** X6. A higher score never gets a milder level. *)
Theorem risk_level_monotone (a b : Q) :
  a <= b -> (severity (_get_risk_level a) <= severity (_get_risk_level b))%nat.
Proof.
  intros Hab. unfold _get_risk_level.
  destruct (Qle_bool 80 b) eqn:B80.
  { destruct (Qle_bool 80 a); [|destruct (Qle_bool 60 a);
      [|destruct (Qle_bool 40 a); [|destruct (Qle_bool 20 a)]]]; cbn; lia. }
  apply Qle_bool_false in B80.
  assert (Qle_bool 80 a = false) as -> by (apply Qle_bool_false; lra).
  destruct (Qle_bool 60 b) eqn:B60.
  { destruct (Qle_bool 60 a);
      [|destruct (Qle_bool 40 a); [|destruct (Qle_bool 20 a)]]; cbn; lia. }
  apply Qle_bool_false in B60.
  assert (Qle_bool 60 a = false) as -> by (apply Qle_bool_false; lra).
  destruct (Qle_bool 40 b) eqn:B40.
  { destruct (Qle_bool 40 a); [|destruct (Qle_bool 20 a)]; cbn; lia. }
  apply Qle_bool_false in B40.
  assert (Qle_bool 40 a = false) as -> by (apply Qle_bool_false; lra).
  destruct (Qle_bool 20 b) eqn:B20.
  { destruct (Qle_bool 20 a); cbn; lia. }
  apply Qle_bool_false in B20.
  assert (Qle_bool 20 a = false) as -> by (apply Qle_bool_false; lra).
  cbn. lia.
Qed.

Lemma risk_level_monotone_witness :
  (severity (_get_risk_level 39.5) <= severity (_get_risk_level 61))%nat.
Proof.
  apply (risk_level_monotone 39.5 61). discriminate.
Defined.

(** X7. For a batch of [n > 0] holders the level reported is the level of
    the reported score, although the code reads it off the sum before the cap
    at 100, and it is never "Unknown". *)
Theorem risk_level_of_reported_score (clusters : list (list string))
    (total_holders : Z) :
  (0 < total_holders)%Z ->
  let r := _calculate_risk_score clusters total_holders in
  risk_level r = _get_risk_level (score r) /\ risk_level r <> Unknown.
Proof.
  intros Hpos r. subst r. unfold _calculate_risk_score.
  destruct (risk_score_body_shape clusters total_holders)
    as (cr & d & v & -> & Hb); [lia|].
  destruct (Hb Hpos) as (Hcr & Hd & Hv).
  cbn [risk_level score].
  destruct (Qmin_cap_bounds (cr * 40) 40) as [Hc0 Hc1]; [lra|discriminate|].
  destruct (Qmin_cap_bounds (d * 30) 30) as [Hd0 Hd1]; [lra|discriminate|].
  destruct (Qmin_cap_bounds (v * 30) 30) as [Hv0 Hv1]; [lra|discriminate|].
  split.
  - apply get_risk_level_Qeq. symmetry. apply Q.min_l. lra.
  - unfold _get_risk_level.
    destruct (Qle_bool 80 _); [discriminate|].
    destruct (Qle_bool 60 _); [discriminate|].
    destruct (Qle_bool 40 _); [discriminate|].
    destruct (Qle_bool 20 _); discriminate.
Qed.

Lemma risk_level_of_reported_score_witness :
  risk_level (_calculate_risk_score [["a"; "b"]; ["c"; "d"; "e"]]%string 7)
  = _get_risk_level
      (score (_calculate_risk_score [["a"; "b"]; ["c"; "d"; "e"]]%string 7)).
Proof.
  destruct (risk_level_of_reported_score [["a"; "b"]; ["c"; "d"; "e"]]%string 7)
    as [H _]; [reflexivity|].
  exact H.
Defined.

(** ** Transaction patterns *)

Section TransactionFacts.

Variable int_of_str : string -> option Z.

Lemma tx_similarity_inactive (wallet1 wallet2 : Holder) :
  is_active_overall (activity_info wallet1)
  && is_active_overall (activity_info wallet2) = false ->
  _calculate_tx_similarity int_of_str wallet1 wallet2 <= 0.8.
Proof.
  intros Hact. unfold _calculate_tx_similarity, tx_similarity_body.
  destruct (_clean_tx_count _ (total_tx_count (base_chain (activity_info wallet1))))
    as [b1|]; [|discriminate].
  destruct (_clean_tx_count _ (total_tx_count (base_chain (activity_info wallet2))))
    as [b2|]; [|discriminate].
  destruct (_clean_tx_count _ (total_tx_count (ethereum (activity_info wallet1))))
    as [e1|]; [|discriminate].
  destruct (_clean_tx_count _ (total_tx_count (ethereum (activity_info wallet2))))
    as [e2|]; [|discriminate].
  cbn [mbind exc_bind Exc.bind]. rewrite Hact.
  pose proof (tx_ratio_le_1 b1 b2) as Hb.
  pose proof (tx_ratio_le_1 e1 e2) as He.
  lra.
Qed.

Lemma similar_pair_elem (wallet1 wallet2 : Holder) (p : TransactionPattern) :
  p ∈ similar_pair int_of_str wallet1 wallet2 <->
  0.8 < _calculate_tx_similarity int_of_str wallet1 wallet2 /\
  p = spec_transaction_pattern int_of_str (wallet1, wallet2).
Proof.
  unfold similar_pair.
  destruct (Qltb 0.8 (_calculate_tx_similarity int_of_str wallet1 wallet2)) eqn:E.
  - apply Qltb_iff in E. rewrite list_elem_of_singleton.
    unfold spec_transaction_pattern. cbn [fst snd]. tauto.
  - apply Qltb_false in E. split.
    + intros H. apply elem_of_nil in H. contradiction.
    + intros [H _]. lra.
Qed.

Lemma transaction_pairs_elem (holders : list Holder) (p : TransactionPattern) :
  p ∈ transaction_pairs int_of_str holders <->
  exists pr, pr ∈ spec_pairs holders /\
             0.8 < _calculate_tx_similarity int_of_str (fst pr) (snd pr) /\
             p = spec_transaction_pattern int_of_str pr.
Proof.
  induction holders as [|wallet1 rest IH]; cbn [transaction_pairs spec_pairs].
  - split; [intros H; apply elem_of_nil in H; contradiction|].
    intros (pr & H & _). apply elem_of_nil in H. contradiction.
  - rewrite elem_of_app, IH. clear IH. split.
    + intros [H|(pr & Hpr & Hs & Hp)].
      * apply list_elem_of_In, in_flat_map in H. destruct H as (w2 & Hw2 & H).
        apply list_elem_of_In in H. apply similar_pair_elem in H.
        destruct H as [Hs Hp].
        exists (wallet1, w2). split; [|split; assumption].
        apply elem_of_app. left. apply list_elem_of_In, in_map. exact Hw2.
      * exists pr. split; [|split; assumption]. apply elem_of_app. right. exact Hpr.
    + intros (pr & Hpr & Hs & Hp). apply elem_of_app in Hpr.
      destruct Hpr as [Hpr|Hpr].
      * left. apply list_elem_of_In, in_map_iff in Hpr.
        destruct Hpr as (w2 & <- & Hw2).
        apply list_elem_of_In, in_flat_map. exists w2. split; [exact Hw2|].
        apply list_elem_of_In, similar_pair_elem. split; assumption.
      * right. exists pr. split; [exact Hpr|]. split; assumption.
Qed.

End TransactionFacts.

(** X8. The transaction patterns are exactly the pairs of holders (in input
    order) whose similarity exceeds 0.8, each with the two addresses, the
    similarity, the combined balance and the recent-activity flag of its
    pair. *)
Theorem transaction_patterns_characterised (int_of_str : string -> option Z)
    (holders : list Holder) (p : TransactionPattern) :
  p ∈ _analyze_transaction_patterns int_of_str holders <->
  (exists pr, (pr ∈ spec_pairs holders) /\
              0.8 < _calculate_tx_similarity int_of_str (fst pr) (snd pr) /\
              p = spec_transaction_pattern int_of_str pr).
Proof.
  unfold _analyze_transaction_patterns.
  rewrite (py_sorted_perm transaction_precedes).
  apply transaction_pairs_elem.
Qed.

(** X9. Two wallets whose similarity exceeds the threshold 0.8 of the
    transaction patterns are both active overall: the factor 0.8 of a pair
    with an inactive wallet keeps its similarity at 0.8 or below. *)
Theorem tx_similarity_above_threshold_active (int_of_str : string -> option Z)
    (wallet1 wallet2 : Holder) :
  0.8 < _calculate_tx_similarity int_of_str wallet1 wallet2 ->
  is_active_overall (activity_info wallet1) = true /\
  is_active_overall (activity_info wallet2) = true.
Proof.
  intros Hs.
  destruct (is_active_overall (activity_info wallet1)
            && is_active_overall (activity_info wallet2)) eqn:E.
  - apply andb_true_iff in E. exact E.
  - pose proof (tx_similarity_inactive int_of_str _ _ E). lra.
Qed.

Lemma tx_similarity_above_threshold_active_witness :
  is_active_overall (activity_info (sample_holder "A")) = true /\
  is_active_overall (activity_info (sample_holder "B")) = true.
Proof.
  apply (tx_similarity_above_threshold_active no_int
           (sample_holder "A") (sample_holder "B")).
  reflexivity.
Defined.

Lemma transaction_precedes_false (y x : TransactionPattern) :
  transaction_precedes y x = false <-> spec_transaction_order x y.
Proof.
  unfold transaction_precedes, spec_transaction_order.
  rewrite orb_false_iff, andb_false_iff, !Qltb_false.
  split.
  - intros [Hle [Hne|Hcb]].
    + left. apply Qle_lteq in Hle. destruct Hle as [Hlt|Heq]; [exact Hlt|].
      apply Qeq_bool_neq in Hne. exfalso. apply Hne. symmetry. exact Heq.
    + apply Qle_lteq in Hle. destruct Hle as [Hlt|Heq]; [left; exact Hlt|].
      right. split; [symmetry; exact Heq|exact Hcb].
  - intros [Hlt|[Heq Hcb]].
    + split; [apply Qlt_le_weak; exact Hlt|].
      left. destruct (Qeq_bool (similarity x) (similarity y)) eqn:E;
        [|reflexivity].
      apply Qeq_bool_iff in E. lra.
    + split; [lra|]. right. exact Hcb.
Qed.

Lemma transaction_precedes_asym (x y : TransactionPattern) :
  transaction_precedes y x = true -> transaction_precedes x y = false.
Proof.
  unfold transaction_precedes at 1.
  rewrite orb_true_iff, andb_true_iff, !Qltb_iff, Qeq_bool_iff.
  intros H. apply transaction_precedes_false. unfold spec_transaction_order.
  destruct H as [H|[H1 H2]]; [left; exact H|right; split; lra].
Qed.

Lemma transaction_precedes_negtrans (x y z : TransactionPattern) :
  transaction_precedes y x = false -> transaction_precedes z y = false ->
  transaction_precedes z x = false.
Proof.
  rewrite !transaction_precedes_false. unfold spec_transaction_order.
  intros [H1|[H1 H1']] [H2|[H2 H2']].
  - left. lra.
  - left. lra.
  - left. lra.
  - right. split; lra.
Qed.

(** X10. The transaction patterns come strongest first: by similarity
    descending, then by combined balance descending. *)
Theorem transaction_patterns_sorted (int_of_str : string -> option Z)
    (holders : list Holder) :
  StronglySorted spec_transaction_order
    (_analyze_transaction_patterns int_of_str holders).
Proof.
  unfold _analyze_transaction_patterns.
  apply (StronglySorted_weaken (in_order transaction_precedes)).
  - intros a b Hab. apply transaction_precedes_false. exact Hab.
  - apply (py_sorted_in_order transaction_precedes
             transaction_precedes_asym transaction_precedes_negtrans).
Qed.

(** ** The entry point *)

(** X11. Contracts and the developer take no part in the clustering: when
    the analysis returns its result, every clustered address is the address
    of a holder of the batch whose type is neither Contract nor Developer,
    and the risk score is the one of those clusters over the number of such
    holders. *)
Theorem analysis_leaves_out_contracts (int_of_str : string -> option Z)
    (first_tx_timestamp : string -> option Z)
    (recent_transactions : list Holder -> exc (list RecentPattern))
    (holders_data : list Holder) (a : ConnectionAnalysis) :
  analyze_wallet_connections int_of_str first_tx_timestamp recent_transactions
    holders_data = Ret (Analysis a) ->
  let user_holders := filter (fun h => is_user_holder h = true) holders_data in
  (forall c addr, c ∈ ca_clusters a -> addr ∈ c ->
     exists h, h ∈ holders_data /\ address h = addr /\
               address_type h <> "Contract"%string /\
               address_type h <> "Developer"%string) /\
  ca_risk_score a
  = _calculate_risk_score (ca_clusters a) (Z.of_nat (length user_holders)).
Proof.
  intros Hres user_holders.
  unfold analyze_wallet_connections, analyze_wallet_connections_with,
    analyze_body in Hres.
  fold user_holders in Hres.
  cbn [mbind exc_bind Exc.bind] in Hres.
  destruct (recent_transactions user_holders) as [rp|e]; [|discriminate Hres].
  cbn [mbind exc_bind Exc.bind mret exc_ret try_except] in Hres.
  injection Hres as <-. cbn [ca_clusters ca_risk_score].
  split; [|reflexivity].
  intros c addr Hc Haddr.
  pose proof (find_clusters_with_ok (_calculate_connection_weight int_of_str)
                user_holders) as Hok.
  rewrite Forall_forall in Hok. specialize (Hok c Hc).
  destruct Hok as (seed & members & -> & _ & Hseed & Hm).
  assert (forall h, h ∈ user_holders ->
            h ∈ holders_data /\ address_type h <> "Contract"%string /\
            address_type h <> "Developer"%string) as Huser.
  { intros h Hh. subst user_holders. apply list_elem_of_filter in Hh.
    destruct Hh as [Hu Hh]. split; [exact Hh|].
    unfold is_user_holder in Hu. apply negb_true_iff, orb_false_iff in Hu.
    destruct Hu as [H1 H2]. apply String.eqb_neq in H1, H2. split; assumption. }
  apply elem_of_cons in Haddr. destruct Haddr as [->|Haddr].
  - exists seed. destruct (Huser seed Hseed) as (H1 & H2 & H3). auto.
  - destruct (Hm addr Haddr) as (h & Hh & Hah & _).
    exists h. destruct (Huser h Hh) as (H1 & H2 & H3). auto.
Qed.

Lemma analysis_leaves_out_contracts_witness :
  exists h,
    h ∈ [sample_holder "A"; sample_contract "K"; sample_holder "B"] /\
    address h = "B"%string /\
    address_type h <> "Contract"%string /\
    address_type h <> "Developer"%string.
Proof.
  pose proof (analysis_leaves_out_contracts no_int (fun _ => None)
                (fun _ => Ret [])
                [sample_holder "A"; sample_contract "K"; sample_holder "B"]
                _ eq_refl) as H.
  cbv zeta in H. destruct H as [H _].
  apply (H ["A"; "B"]%string "B"%string).
  - vm_compute. constructor.
  - constructor. constructor.
Defined.

End AnalyzerExtras.

(** * Properties of the recent transfers *)

Module RecentFacts.
Import WalletAnalyzer RecentTransactions RecentInputs AnalyzerFacts.
Local Open Scope Q_scope.

Lemma sorted_pair_ordered (w : string * string) :
  String.ltb (snd (sorted_pair w)) (fst (sorted_pair w)) = false.
Proof.
  unfold sorted_pair. destruct w as [a b]. cbn [fst snd].
  destruct (String.ltb b a) eqn:E; cbn [fst snd]; [|exact E].
  unfold String.ltb in *. rewrite String.compare_antisym.
  destruct (String.compare b a); try discriminate E. reflexivity.
Qed.

Lemma sorted_pair_members (w : string * string) :
  (fst (sorted_pair w) = fst w /\ snd (sorted_pair w) = snd w) \/
  (fst (sorted_pair w) = snd w /\ snd (sorted_pair w) = fst w).
Proof.
  unfold sorted_pair. destruct (String.ltb (snd w) (fst w)); cbn [fst snd]; auto.
Qed.

Lemma group_append_keys (pair : string * string) (p : Transfer)
    (g : list ((string * string) * list Transfer)) :
  map fst (group_append pair p g)
  = if decide (pair ∈ map fst g) then map fst g else map fst g ++ [pair].
Proof.
  induction g as [|[k txs] g IH]; cbn [group_append map fst].
  - rewrite decide_False by set_solver. reflexivity.
  - destruct (decide (k = pair)) as [->|Hne]; cbn [map fst].
    + rewrite decide_True by set_solver. reflexivity.
    + rewrite IH. destruct (decide (pair ∈ map fst g)) as [Hin|Hnin].
      * rewrite decide_True by set_solver. reflexivity.
      * rewrite decide_False by set_solver. reflexivity.
Qed.

Lemma group_append_Forall (P : (string * string) * list Transfer -> Prop)
    (pair : string * string) (p : Transfer)
    (g : list ((string * string) * list Transfer)) :
  Forall P g ->
  P (pair, [p]) ->
  (forall txs, P (pair, txs) -> P (pair, txs ++ [p])) ->
  Forall P (group_append pair p g).
Proof.
  intros Hg Hnew Hadd. induction g as [|[k txs] g IH]; cbn [group_append].
  - constructor; [exact Hnew|constructor].
  - apply Forall_cons in Hg. destruct Hg as [Hk Hg].
    destruct (decide (k = pair)) as [->|Hne].
    + constructor; [apply Hadd; exact Hk|exact Hg].
    + constructor; [exact Hk|apply IH; exact Hg].
Qed.

Lemma group_append_count (pair : string * string) (p : Transfer)
    (g : list ((string * string) * list Transfer)) :
  sum_list (map (fun e => length (snd e)) (group_append pair p g))
  = S (sum_list (map (fun e => length (snd e)) g)).
Proof.
  induction g as [|[k txs] g IH]; [reflexivity|].
  cbn [group_append]. destruct (decide (k = pair)).
  - change (length (txs ++ [p]) + sum_list (map (fun e => length (snd e)) g)
            = S (length txs + sum_list (map (fun e => length (snd e)) g)))%nat.
    rewrite length_app. cbn [length]. lia.
  - change (length txs
            + sum_list (map (fun e => length (snd e)) (group_append pair p g))
            = S (length txs + sum_list (map (fun e => length (snd e)) g)))%nat.
    rewrite IH. lia.
Qed.

Lemma group_transfers_inv (P : Transfer -> Prop) (patterns : list Transfer) :
  Forall P patterns ->
  group_inv P (length patterns) (group_transfers patterns).
Proof.
  unfold group_transfers.
  induction patterns as [|p patterns IH] using rev_ind; intros HP.
  - cbn. split; [constructor|]. split; [constructor|reflexivity].
  - apply Forall_app in HP. destruct HP as [HP Hp].
    apply Forall_cons in Hp. destruct Hp as [Hp _].
    rewrite foldl_app. cbn [foldl].
    destruct (IH HP) as (Hnd & Hall & Hsum).
    set (g := foldl _ [] patterns) in *.
    split; [|split].
    + rewrite group_append_keys. case_decide as Hin; [exact Hnd|].
      apply NoDup_app. split; [exact Hnd|]. split; [|apply NoDup_singleton].
      intros k Hk Hk'. apply list_elem_of_singleton in Hk'. subst k. contradiction.
    + apply group_append_Forall; [exact Hall| |].
      * cbn [fst snd]. split; [discriminate|].
        constructor; [split; [exact Hp|reflexivity]|constructor].
      * cbn [fst snd]. intros txs [Hne Htxs]. split.
        { intros H. apply app_eq_nil in H. destruct H as [_ H]. discriminate H. }
        apply Forall_app. split; [exact Htxs|].
        constructor; [split; [exact Hp|reflexivity]|constructor].
    + rewrite group_append_count, Hsum, length_app. cbn [length]. lia.
Qed.

Lemma total_value_pos_from (l : list Q) (acc : Q) :
  0 <= acc -> l <> [] -> Forall (fun v => 0 < v) l ->
  0 < fold_left Qplus l acc.
Proof.
  revert acc. induction l as [|v l IH]; intros acc Hacc Hne Hl; [contradiction|].
  apply Forall_cons in Hl. destruct Hl as [Hv Hl]. cbn [fold_left].
  destruct l as [|w l].
  - cbn [fold_left]. lra.
  - apply IH; [lra|discriminate|exact Hl].
Qed.

Lemma sum_list_perm (l l' : list nat) :
  Permutation l l' -> sum_list l = sum_list l'.
Proof.
  induction 1 as [|x l l' _ IH|x y l|l l' l'' _ IH1 _ IH2].
  - reflexivity.
  - change (x + sum_list l = x + sum_list l')%nat. rewrite IH. reflexivity.
  - change (y + (x + sum_list l) = x + (y + sum_list l))%nat. lia.
  - rewrite IH1. exact IH2.
Qed.

Lemma recent_precedes_false (y x : RecentPattern) :
  recent_precedes y x = false <-> spec_recent_order x y.
Proof.
  unfold recent_precedes, spec_recent_order.
  rewrite orb_false_iff, andb_false_iff, Qltb_false, Nat.ltb_ge, Nat.eqb_neq.
  split.
  - intros [Hle [Hne|Hv]]; [left; lia|].
    destruct (decide (frequency x = frequency y)) as [Heq|Hne];
      [right; split; assumption|left; lia].
  - intros [Hlt|[Heq Hv]]; [split; [lia|left; lia]|].
    split; [lia|right; exact Hv].
Qed.

Lemma recent_precedes_asym (x y : RecentPattern) :
  recent_precedes y x = true -> recent_precedes x y = false.
Proof.
  unfold recent_precedes at 1.
  rewrite orb_true_iff, andb_true_iff, Qltb_iff, Nat.ltb_lt, Nat.eqb_eq.
  intros H. apply recent_precedes_false. unfold spec_recent_order.
  destruct H as [H|[H1 H2]]; [left; exact H|right; split; [lia|lra]].
Qed.

Lemma recent_precedes_negtrans (x y z : RecentPattern) :
  recent_precedes y x = false -> recent_precedes z y = false ->
  recent_precedes z x = false.
Proof.
  rewrite !recent_precedes_false. unfold spec_recent_order.
  intros [H1|[H1 H1']] [H2|[H2 H2']].
  - left. lia.
  - left. lia.
  - left. lia.
  - right. split; [lia|lra].
Qed.

Section RecentPatterns.

Variable txlist : string -> option (list Tx).
Variable seven_days_ago : Z.

Lemma transfers_of_elem (holder_addresses : gset string) (h : Holder)
    (p : Transfer) :
  p ∈ transfers_of txlist seven_days_ago holder_addresses h ->
  0 < tr_value_eth p /\ snd (tr_wallets p) ∈ holder_addresses.
Proof.
  unfold transfers_of. destruct (txlist (address h)) as [result|];
    [|intros H; apply elem_of_nil in H; contradiction].
  intros H. apply list_elem_of_In, in_flat_map in H.
  destruct H as (tx & Htx & Hp).
  apply list_elem_of_In, list_elem_of_filter in Htx. destruct Htx as [Hrec _].
  destruct (Qltb 0 (inject_Z (tx_value tx) / inject_Z (10 ^ 18))) eqn:Hv;
    [|contradiction].
  destruct Hp as [<-|[]]. cbn [tr_value_eth tr_wallets snd].
  split; [apply Qltb_iff; exact Hv|].
  unfold is_recent_transfer in Hrec.
  apply andb_true_iff in Hrec. destruct Hrec as [Hrec _].
  apply andb_true_iff in Hrec. destruct Hrec as [_ Hto].
  apply bool_decide_eq_true in Hto. exact Hto.
Qed.

(** X12. Grouping loses and invents no transfer: the frequencies of the
    aggregated patterns add up to the number of transfers that were kept. *)
Theorem recent_transactions_frequencies (holders : list Holder) :
  sum_list (map frequency
              (_analyze_recent_transactions txlist seven_days_ago holders))
  = length (recent_transfers txlist seven_days_ago holders).
Proof.
  unfold _analyze_recent_transactions.
  rewrite (sum_list_perm _ _
             (Permutation_map frequency (py_sorted_perm recent_precedes _))).
  rewrite map_map.
  destruct (group_transfers_inv (fun _ => True)
              (recent_transfers txlist seven_days_ago holders)) as (_ & _ & Hsum).
  - apply Forall_forall. intros; exact I.
  - exact Hsum.
Qed.

(** X13. Every aggregated pattern stands for a distinct pair of wallets in
    ascending order, counts at least one transfer, has a positive total value,
    and one of its two wallets is the lower-cased address of a holder. *)
Theorem recent_transactions_well_formed (holders : list Holder) :
  let result := _analyze_recent_transactions txlist seven_days_ago holders in
  NoDup (map rp_wallets result) /\
  Forall (recent_ok (list_to_set (map (fun h => lower (address h)) holders)))
    result.
Proof.
  intros result. subst result. unfold _analyze_recent_transactions.
  set (patterns := recent_transfers txlist seven_days_ago holders).
  set (addrs := list_to_set (map (fun h => lower (address h)) holders) : gset string).
  destruct (group_transfers_inv
              (fun p => 0 < tr_value_eth p /\ snd (tr_wallets p) ∈ addrs)
              patterns) as (Hnd & Hall & _).
  { apply Forall_forall. intros p Hp. subst patterns.
    unfold recent_transfers in Hp. apply list_elem_of_In, in_flat_map in Hp.
    destruct Hp as (h & _ & Hp).
    apply list_elem_of_In, transfers_of_elem in Hp. exact Hp. }
  split.
  - rewrite (Permutation_map rp_wallets (py_sorted_perm recent_precedes _)).
    rewrite map_map. exact Hnd.
  - rewrite (py_sorted_perm recent_precedes _).
    apply Forall_map. eapply Forall_impl; [exact Hall|].
    intros [k txs]. cbn [fst snd]. intros [Hne Htxs].
    unfold recent_ok, aggregate. cbn [frequency value_eth rp_wallets fst snd].
    destruct txs as [|p txs]; [contradiction|].
    pose proof Htxs as Hp. apply Forall_cons in Hp.
    destruct Hp as [[[Hv Hto] Hk] _]. subst k.
    split; [cbn [length]; lia|]. split; [|split].
    + unfold total_value. apply total_value_pos_from; [lra|discriminate|].
      apply Forall_map. eapply Forall_impl; [exact Htxs|].
      intros q [[Hq _] _]. exact Hq.
    + apply sorted_pair_ordered.
    + destruct (sorted_pair_members (tr_wallets p)) as [[_ ->]|[-> _]];
        [right|left]; exact Hto.
Qed.

(** X14. The aggregated patterns come most frequent first, and among equally
    frequent ones the larger total value first. *)
Theorem recent_transactions_sorted (holders : list Holder) :
  StronglySorted spec_recent_order
    (_analyze_recent_transactions txlist seven_days_ago holders).
Proof.
  unfold _analyze_recent_transactions.
  apply (StronglySorted_weaken (in_order recent_precedes)).
  - intros a b Hab. apply recent_precedes_false. exact Hab.
  - apply (py_sorted_in_order recent_precedes
             recent_precedes_asym recent_precedes_negtrans).
Qed.

End RecentPatterns.

End RecentFacts.

(** * Further properties of the analysis queue *)

Module QueueExtras.
Import Queue Inputs QueueFacts QueueMore.

(** ** The ledger *)

(** X15. A debit that succeeds is undone by a credit of the same amount. *)
Theorem use_credit_add_credits (ledger : gmap Z Z) (user_id amount : Z)
    (ledger' : gmap Z Z) :
  0 < amount ->
  use_credit ledger user_id amount = (true, ledger') ->
  add_credits ledger' user_id amount = (true, ledger).
Proof.
  intros Hpos Huse. unfold use_credit in Huse.
  destruct (ledger !! user_id) as [c|] eqn:Ec; [|discriminate Huse].
  destruct (amount <=? c); [|discriminate Huse].
  injection Huse as <-. unfold add_credits.
  destruct (amount <=? 0) eqn:E; [apply Z.leb_le in E; lia|].
  rewrite lookup_insert_eq, insert_insert_eq.
  replace (c - amount + amount) with c by lia.
  rewrite (insert_id _ _ _ Ec). reflexivity.
Qed.

Lemma use_credit_add_credits_witness :
  add_credits (snd (use_credit sample_ledger 2 5)) 2 5 = (true, sample_ledger).
Proof.
  apply (use_credit_add_credits sample_ledger 2 5); reflexivity.
Defined.

Lemma use_credit_nonneg (ledger : gmap Z Z) (user_id amount : Z) :
  ledger_nonneg ledger -> ledger_nonneg (snd (use_credit ledger user_id amount)).
Proof.
  intros Hl. unfold use_credit.
  destruct (ledger !! user_id) as [c|] eqn:Ec; [|exact Hl].
  destruct (amount <=? c) eqn:E; [|exact Hl].
  apply Z.leb_le in E. cbn [snd]. intros u c' Hu.
  destruct (decide (u = user_id)) as [->|Hne].
  - rewrite lookup_insert_eq in Hu. injection Hu as <-. lia.
  - rewrite lookup_insert_ne in Hu by congruence. exact (Hl u c' Hu).
Qed.

Lemma add_credits_nonneg (ledger : gmap Z Z) (user_id credits : Z) :
  ledger_nonneg ledger -> ledger_nonneg (snd (add_credits ledger user_id credits)).
Proof.
  intros Hl. unfold add_credits.
  destruct (credits <=? 0) eqn:E; [exact Hl|]. apply Z.leb_gt in E.
  destruct (ledger !! user_id) as [c|] eqn:Ec; [|exact Hl].
  cbn [snd]. intros u c' Hu.
  destruct (decide (u = user_id)) as [->|Hne].
  - rewrite lookup_insert_eq in Hu. injection Hu as <-.
    specialize (Hl user_id c Ec). lia.
  - rewrite lookup_insert_ne in Hu by congruence. exact (Hl u c' Hu).
Qed.

Lemma check_and_deduct_ledger (chat_id user_id : Z) (analysis_type : string)
    (s : State) :
  match check_and_deduct chat_id user_id analysis_type s with
  | inl s' => ledger s' = ledger s
  | inr s' =>
      ledger s' = snd (use_credit (ledger s) user_id (credits_required analysis_type))
  end.
Proof.
  unfold check_and_deduct, get_user.
  destruct (ledger s !! user_id) as [c|] eqn:Ec; [|reflexivity].
  destruct (c <? credits_required analysis_type); [reflexivity|].
  destruct (use_credit (ledger s) user_id (credits_required analysis_type))
    as [[|] l'] eqn:Eu; reflexivity.
Qed.

Lemma check_and_deduct_nonneg (chat_id user_id : Z) (analysis_type : string)
    (s : State) :
  ledger_nonneg (ledger s) ->
  match check_and_deduct chat_id user_id analysis_type s with
  | inl s' | inr s' => ledger_nonneg (ledger s')
  end.
Proof.
  intros Hl.
  pose proof (check_and_deduct_ledger chat_id user_id analysis_type s) as H.
  destruct (check_and_deduct chat_id user_id analysis_type s) as [s'|s'];
    rewrite H; [exact Hl|apply use_credit_nonneg; exact Hl].
Qed.

Lemma enqueue_task_nonneg (token_address : string) (chat_id user_id : Z)
    (analysis_type : string) (s : State) :
  ledger_nonneg (ledger s) ->
  ledger_nonneg (ledger (snd (enqueue_task token_address chat_id user_id
                                 analysis_type s))).
Proof.
  intros Hl. unfold enqueue_task.
  set (s1 := match queue s with
             | [] => s
             | _ => send_message chat_id (MsgQueued token_address analysis_type) s
             end).
  assert (ledger_nonneg (ledger s1)) as Hl1.
  { subst s1. destruct (queue s); exact Hl. }
  pose proof (check_and_deduct_nonneg chat_id user_id analysis_type s1 Hl1) as H.
  destruct (check_and_deduct chat_id user_id analysis_type s1) as [s'|s'];
    [exact H|].
  cbn [snd]. destruct (processing _); exact H.
Qed.

Lemma add_task_nonneg (token_address : string) (chat_id user_id : Z)
    (analysis_type : string) (s : State) :
  ledger_nonneg (ledger s) ->
  ledger_nonneg (ledger (snd (add_task token_address chat_id user_id
                                analysis_type s))).
Proof.
  intros Hl. unfold add_task.
  destruct (active_tokens s !! token_address) as [record|];
    [|apply enqueue_task_nonneg; exact Hl].
  destruct (String.eqb (if_analysis_type record) analysis_type).
  - destruct (decide (user_id ∈ results_sent record)); exact Hl.
  - pose proof (check_and_deduct_nonneg chat_id user_id analysis_type s Hl) as H.
    destruct (check_and_deduct chat_id user_id analysis_type s) as [s'|s'];
      [exact H|].
    apply enqueue_task_nonneg. exact H.
Qed.

Lemma fan_out_frame (record : InFlight) (report : Report) (analysis_type : string)
    (l : list Z) (s : State) (sent : gset Z) :
  let r :=
    foldl
      (fun '(s, sent) wait_user_id =>
         if decide (wait_user_id ∈ sent) then (s, sent)
         else
           let target_chat_id :=
             default wait_user_id
               (default ∅ (chat_ids record) !! wait_user_id) in
           let s :=
             set_analysis_results
               (<[wait_user_id := report]> (analysis_results s)) s in
           (send_message target_chat_id (MsgResults report analysis_type) s,
            sent ∪ {[wait_user_id]}))
      (s, sent) l in
  ledger (fst r) = ledger s /\ queue (fst r) = queue s /\
  active_tokens (fst r) = active_tokens s /\
  analysis_cache (fst r) = analysis_cache s /\
  current_task (fst r) = current_task s /\
  processing (fst r) = processing s.
Proof.
  revert s sent. induction l as [|u l IH]; intros s sent; cbn [foldl].
  - repeat split.
  - destruct (decide (u ∈ sent)); [apply IH|].
    specialize (IH (send_message
                      (default u (default ∅ (chat_ids record) !! u))
                      (MsgResults report analysis_type)
                      (set_analysis_results (<[u := report]> (analysis_results s)) s))
                   (sent ∪ {[u]})).
    cbv zeta in IH. exact IH.
Qed.

(** ** The worker *)

Lemma deliver_results_frame (task : Task) (data : string) (s : State) :
  let r := deliver_results task data s in
  ledger (fst r) = ledger s /\ queue (fst r) = queue s /\
  current_task (fst r) = current_task s /\ processing (fst r) = processing s /\
  delete (token_address task) (active_tokens (fst r))
  = delete (token_address task) (active_tokens s).
Proof.
  cbv zeta. unfold deliver_results.
  cbn [set_analysis_cache active_tokens].
  destruct (active_tokens s !! token_address task) as [record|];
    [|cbn; repeat split; reflexivity].
  unfold fan_out.
  match goal with
  | |- context [foldl ?f (?s0, ?sent0) ?l] =>
      pose proof (fan_out_frame record
                    {| r_token_address := token_address task;
                       r_analysis_type := analysis_type task;
                       r_data := data |}
                    (analysis_type task) l s0 sent0) as H;
      cbv zeta in H;
      destruct (foldl f (s0, sent0) l) as [s1 sent1]
  end.
  cbn [fst] in *. destruct H as (Hl & Hq & Ha & _ & Hc & Hp).
  cbn [set_active_tokens ledger queue current_task processing active_tokens].
  rewrite Hl, Hq, Hc, Hp, Ha.
  cbn [ledger queue current_task processing active_tokens].
  repeat split; try reflexivity.
  apply delete_insert_eq.
Qed.

Lemma refund_on_failure_frame (task : Task) (e : exn) (s : State) :
  let r := refund_on_failure task e s in
  queue (fst r) = queue s /\ current_task (fst r) = current_task s /\
  processing (fst r) = processing s /\
  analysis_cache (fst r) = analysis_cache s /\
  analysis_results (fst r) = analysis_results s /\
  delete (token_address task) (active_tokens (fst r))
  = delete (token_address task) (active_tokens s) /\
  (ledger (fst r) = ledger s \/
   ledger (fst r)
   = snd (add_credits (ledger s) (user_id task)
            (credits_required (analysis_type task)))).
Proof.
  cbv zeta. unfold refund_on_failure.
  destruct (active_tokens s !! token_address task) as [record|];
    [|cbn; repeat split; try reflexivity; left; reflexivity].
  destruct (decide (user_id task ∈ credits_deducted record));
    [|cbn; repeat split; try reflexivity; left; reflexivity].
  destruct (add_credits (ledger s) (user_id task)
              (credits_required (analysis_type task))) as [ok ledger'].
  cbn. repeat split; try reflexivity; [apply delete_insert_eq|right; reflexivity].
Qed.

Lemma worker_finish_shape (outcome : Outcome) (task : Task) (s : State) :
  current_task s = Some task ->
  let s' := worker_finish outcome s in
  current_task s' = None /\
  active_tokens s' = delete (token_address task) (active_tokens s) /\
  queue s' = queue s /\
  (ledger s' = ledger s \/
   ledger s'
   = snd (add_credits (ledger s) (user_id task)
            (credits_required (analysis_type task)))).
Proof.
  intros Hcur s'. subst s'. unfold worker_finish. rewrite Hcur.
  assert (forall s1 e,
            queue s1 = queue s ->
            delete (token_address task) (active_tokens s1)
            = delete (token_address task) (active_tokens s) ->
            ledger s1 = ledger s ->
            let s2 := cleanup task
                        (let '(s, e) := refund_on_failure task e s1 in
                         send_message (chat_id task) (MsgTaskError (exn_text e)) s) in
            current_task s2 = None /\
            active_tokens s2 = delete (token_address task) (active_tokens s) /\
            queue s2 = queue s /\
            (ledger s2 = ledger s \/
             ledger s2
             = snd (add_credits (ledger s) (user_id task)
                      (credits_required (analysis_type task))))) as Hfail.
  { intros s1 e Hq Ha Hl.
    pose proof (refund_on_failure_frame task e s1) as H. cbv zeta in H.
    destruct (refund_on_failure task e s1) as [s2 e2]. cbn [fst] in H.
    destruct H as (Hq2 & _ & _ & _ & _ & Ha2 & Hl2).
    cbn. rewrite Ha2, Ha, Hq2, Hq, <- Hl. repeat split; try reflexivity.
    exact Hl2. }
  destruct outcome as [data|error].
  - pose proof (deliver_results_frame task data s) as H. cbv zeta in H.
    destruct (deliver_results task data s) as [s1 [e|]]. 
    + cbn [fst] in H. destruct H as (Hl & Hq & _ & _ & Ha).
      apply Hfail; assumption.
    + cbn [fst] in H. destruct H as (Hl & Hq & _ & _ & Ha).
      cbn. rewrite Ha, Hq, Hl. repeat split; try reflexivity. left. reflexivity.
  - apply Hfail; reflexivity.
Qed.

(** X16. Whatever the outcome, finishing a task clears the current task and
    removes the in-flight record of its token and no other; the queue is
    untouched, no balance but the requester's changes, and the requester's
    balance either stays or grows by the cost of the task. *)
Theorem worker_finish_cleans_up (outcome : Outcome) (task : Task) (s : State) :
  current_task s = Some task ->
  let s' := worker_finish outcome s in
  current_task s' = None /\
  active_tokens s' = delete (token_address task) (active_tokens s) /\
  queue s' = queue s /\
  (ledger s' = ledger s \/
   ledger s'
   = snd (add_credits (ledger s) (user_id task)
            (credits_required (analysis_type task)))).
Proof. exact (worker_finish_shape outcome task s). Qed.

Lemma worker_finish_cleans_up_witness :
  active_tokens (worker_finish (AnalysisDone "report") quick_in_flight) !! "T"
  = None.
Proof.
  destruct (worker_finish_cleans_up (AnalysisDone "report")
              {| token_address := "T"; chat_id := 101; user_id := 1;
                 analysis_type := "quick" |}
              quick_in_flight eq_refl) as (_ & Ha & _).
  rewrite Ha. apply lookup_delete_eq.
Defined.

Lemma worker_finish_nonneg (outcome : Outcome) (s : State) :
  ledger_nonneg (ledger s) -> ledger_nonneg (ledger (worker_finish outcome s)).
Proof.
  intros Hl. destruct (current_task s) as [task|] eqn:Ec.
  - destruct (worker_finish_shape outcome task s Ec) as (_ & _ & _ & [H|H]);
      rewrite H; [exact Hl|apply add_credits_nonneg; exact Hl].
  - unfold worker_finish. rewrite Ec. exact Hl.
Qed.

Lemma worker_pop_ledger (s : State) : ledger (worker_pop s) = ledger s.
Proof.
  unfold worker_pop. destruct (queue s) as [|task rest]; [reflexivity|].
  cbn [set_processing set_queue set_current_task active_tokens].
  destruct (active_tokens s !! token_address task); reflexivity.
Qed.

Lemma worker_stop_ledger (s : State) : ledger (worker_stop s) = ledger s.
Proof. unfold worker_stop. destruct (queue s); reflexivity. Qed.

(** X17. No run of the queue overdraws an account: if every balance is
    non-negative, it still is after any sequence of submissions and worker
    steps. *)
Theorem run_keeps_balances_nonneg (s : State) (evs : list Event) :
  ledger_nonneg (ledger s) -> ledger_nonneg (ledger (run s evs)).
Proof.
  unfold run. revert s. induction evs as [|ev evs IH]; intros s Hl; [exact Hl|].
  cbn [foldl]. apply IH. destruct ev as [t c u k| |o|]; cbn [step].
  - apply add_task_nonneg. exact Hl.
  - rewrite worker_pop_ledger. exact Hl.
  - apply worker_finish_nonneg. exact Hl.
  - rewrite worker_stop_ledger. exact Hl.
Qed.

Lemma run_keeps_balances_nonneg_witness : ledger_nonneg (ledger both_failed).
Proof.
  apply (run_keeps_balances_nonneg (init sample_ledger)
           [Submit "T" 101 1 "quick"; Pop; Submit "T" 102 2 "deep";
            Finish (AnalysisFailed "provider down"); Pop;
            Finish (AnalysisFailed "provider down")]).
  intros u c Hu. cbn [init ledger] in Hu. unfold sample_ledger in Hu.
  destruct (decide (u = 1)) as [->|H1];
    [rewrite lookup_insert_eq in Hu; injection Hu as <-; lia|].
  rewrite lookup_insert_ne in Hu by congruence.
  destruct (decide (u = 2)) as [->|H2];
    [rewrite lookup_insert_eq in Hu; injection Hu as <-; lia|].
  rewrite lookup_insert_ne in Hu by congruence.
  destruct (decide (u = 3)) as [->|H3];
    [rewrite lookup_singleton_eq in Hu; injection Hu as <-; lia|].
  rewrite lookup_singleton_ne in Hu by congruence. discriminate Hu.
Defined.

(** ** Delivery *)





(** ** Admission, continued *)

Lemma check_and_deduct_frame (chat_id user_id : Z) (analysis_type : string)
    (s : State) :
  match check_and_deduct chat_id user_id analysis_type s with
  | inl s' | inr s' =>
      queue s' = queue s /\ active_tokens s' = active_tokens s /\
      analysis_cache s' = analysis_cache s /\
      analysis_results s' = analysis_results s /\
      current_task s' = current_task s /\ processing s' = processing s /\
      forall u, u <> user_id -> ledger s' !! u = ledger s !! u
  end.
Proof.
  unfold check_and_deduct, get_user.
  destruct (ledger s !! user_id) as [c|] eqn:Ec; [|cbn; repeat split; reflexivity].
  destruct (c <? credits_required analysis_type); [cbn; repeat split; reflexivity|].
  unfold use_credit. rewrite Ec.
  destruct (credits_required analysis_type <=? c);
    cbn; repeat split; try reflexivity.
  intros u Hu. apply lookup_insert_ne. congruence.
Qed.

Ltac split7 := split; [|split; [|split; [|split; [|split; [|split]]]]].

Lemma enqueue_task_frame (token_address : string) (chat_id user_id : Z)
    (analysis_type : string) (s : State) :
  let r := enqueue_task token_address chat_id user_id analysis_type s in
  analysis_cache (snd r) = analysis_cache s /\
  analysis_results (snd r) = analysis_results s /\
  current_task (snd r) = current_task s /\
  (forall u, u <> user_id -> ledger (snd r) !! u = ledger s !! u) /\
  (forall t, t <> token_address ->
             active_tokens (snd r) !! t = active_tokens s !! t) /\
  (exists suffix, queue (snd r) = queue s ++ suffix) /\
  (fst r = false ->
   queue (snd r) = queue s /\ active_tokens (snd r) = active_tokens s).
Proof.
  cbv zeta. unfold enqueue_task.
  set (s1 := match queue s with
             | [] => s
             | _ => send_message chat_id (MsgQueued token_address analysis_type) s
             end).
  assert (queue s1 = queue s /\ active_tokens s1 = active_tokens s /\
          analysis_cache s1 = analysis_cache s /\
          analysis_results s1 = analysis_results s /\
          current_task s1 = current_task s /\ ledger s1 = ledger s)
    as (Hq & Ha & Hc & Hr & Ht & Hl).
  { subst s1. destruct (queue s) eqn:E; repeat split; try reflexivity; exact E. }
  pose proof (check_and_deduct_frame chat_id user_id analysis_type s1) as H.
  destruct (check_and_deduct chat_id user_id analysis_type s1) as [s2|s2];
    destruct H as (Hq2 & Ha2 & Hc2 & Hr2 & Ht2 & Hp2 & Hl2).
  - cbn [fst snd]. rewrite Hc2, Hr2, Ht2, Hq2, Ha2, Hc, Hr, Ht, Hq, Ha.
    split7; try reflexivity.
    + intros u Hu. rewrite Hl2 by exact Hu. rewrite Hl. reflexivity.
    + exists (@nil Task). rewrite app_nil_r. reflexivity.
    + intros _. split; reflexivity.
  - cbn [fst snd].
    set (s3 := set_active_tokens _ _).
    assert (analysis_cache s3 = analysis_cache s /\
            analysis_results s3 = analysis_results s /\
            current_task s3 = current_task s /\
            (forall u, u <> user_id -> ledger s3 !! u = ledger s !! u) /\
            (forall t, t <> token_address ->
                       active_tokens s3 !! t = active_tokens s !! t) /\
            (exists suffix, queue s3 = queue s ++ suffix))
      as (H1 & H2 & H3 & H4 & H5 & H6).
    { subst s3.
      cbn [set_active_tokens set_queue analysis_cache analysis_results
           current_task ledger active_tokens queue].
      rewrite Hc2, Hr2, Ht2, Hq2, Hc, Hr, Ht, Hq.
      split; [reflexivity|]. split; [reflexivity|]. split; [reflexivity|].
      split; [intros u Hu; rewrite Hl2 by exact Hu; rewrite Hl; reflexivity|].
      split; [|eexists; reflexivity].
      intros t Hne. rewrite lookup_insert_ne by congruence.
      rewrite Ha2, Ha. reflexivity. }
    destruct (processing s3); cbn [spawn_worker analysis_cache analysis_results
                                   current_task ledger active_tokens queue];
      (split7; [assumption|assumption|assumption|assumption|assumption|
                assumption|discriminate]).
Qed.

Lemma add_task_effect (token_address : string) (chat_id user_id : Z)
    (analysis_type : string) (s : State) :
  let r := add_task token_address chat_id user_id analysis_type s in
  analysis_cache (snd r) = analysis_cache s /\
  analysis_results (snd r) = analysis_results s /\
  current_task (snd r) = current_task s /\
  (forall u, u <> user_id -> ledger (snd r) !! u = ledger s !! u) /\
  (forall t, t <> token_address ->
             active_tokens (snd r) !! t = active_tokens s !! t) /\
  (exists suffix, queue (snd r) = queue s ++ suffix) /\
  (fst r = false ->
   queue (snd r) = queue s /\ active_tokens (snd r) = active_tokens s).
Proof.
  cbv zeta. unfold add_task.
  destruct (active_tokens s !! token_address) as [record|] eqn:Er;
    [|apply enqueue_task_frame].
  destruct (String.eqb (if_analysis_type record) analysis_type).
  - destruct (decide (user_id ∈ results_sent record));
      cbn [fst snd send_message set_active_tokens analysis_cache
           analysis_results current_task ledger active_tokens queue];
      (split7;
       [ reflexivity | reflexivity | reflexivity | reflexivity
       | intros t Hne; rewrite ?lookup_insert_ne by congruence; reflexivity
       | exists (@nil Task); rewrite app_nil_r; reflexivity
       | discriminate ]).
  - pose proof (check_and_deduct_frame chat_id user_id analysis_type s) as H.
    destruct (check_and_deduct chat_id user_id analysis_type s) as [s2|s2];
      destruct H as (Hq2 & Ha2 & Hc2 & Hr2 & Ht2 & Hp2 & Hl2).
    + cbn [fst snd]. rewrite Hc2, Hr2, Ht2, Hq2, Ha2.
      split7; try reflexivity; [exact Hl2| |intros _; split; reflexivity].
      exists (@nil Task). rewrite app_nil_r. reflexivity.
    + pose proof (enqueue_task_frame token_address chat_id user_id
                    analysis_type s2) as H.
      cbv zeta in H. destruct H as (Hc & Hr & Ht & Hl & Ha & Hq & Hrej).
      rewrite Hc, Hr, Ht, Hc2, Hr2, Ht2.
      split7; try reflexivity.
      * intros u Hu. rewrite Hl by exact Hu. apply Hl2. exact Hu.
      * intros t Hne. rewrite Ha by exact Hne. rewrite Ha2. reflexivity.
      * destruct Hq as [suffix Hq]. exists suffix. rewrite Hq, Hq2. reflexivity.
      * intros H. destruct (Hrej H) as [Hq' Ha'].
        rewrite Hq', Hq2, Ha', Ha2. split; reflexivity.
Qed.

(** X19. A submission touches nothing but the submitting requester's balance
    and the record of its token: the other balances, the other records, the
    cache, the stored results and the current task stay, and the queue only
    grows at its end. A rejected submission leaves the queue and every record
    as they were. *)
Theorem add_task_frame (token_address : string) (chat_id user_id : Z)
    (analysis_type : string) (s : State) :
  let r := add_task token_address chat_id user_id analysis_type s in
  analysis_cache (snd r) = analysis_cache s /\
  analysis_results (snd r) = analysis_results s /\
  current_task (snd r) = current_task s /\
  (forall u, u <> user_id -> ledger (snd r) !! u = ledger s !! u) /\
  (forall t, t <> token_address ->
             active_tokens (snd r) !! t = active_tokens s !! t) /\
  (exists suffix, queue (snd r) = queue s ++ suffix) /\
  (fst r = false ->
   queue (snd r) = queue s /\ active_tokens (snd r) = active_tokens s).
Proof.
  exact (add_task_effect token_address chat_id user_id analysis_type s).
Qed.





(** X21. A request for a second kind on a token in flight, from a requester
    whose balance covers the cost once but not twice, is rejected after the
    first of the two deductions: [add_task] returns false, nothing is queued
    and no record changes, yet the requester has paid the cost. *)
Theorem add_task_other_kind_rejected_after_debit (token_address : string)
    (chat_id user_id : Z) (analysis_type : string) (s : State)
    (record : InFlight) (c : Z) :
  active_tokens s !! token_address = Some record ->
  if_analysis_type record <> analysis_type ->
  ledger s !! user_id = Some c ->
  credits_required analysis_type <= c < 2 * credits_required analysis_type ->
  let r := add_task token_address chat_id user_id analysis_type s in
  fst r = false /\
  ledger (snd r) = <[user_id := c - credits_required analysis_type]> (ledger s) /\
  queue (snd r) = queue s /\
  active_tokens (snd r) = active_tokens s.
Proof.
  intros Hrec Htype Hc [Hle Hlt] r. subst r.
  unfold add_task. rewrite Hrec.
  destruct (String.eqb (if_analysis_type record) analysis_type) eqn:Et.
  { apply String.eqb_eq in Et. contradiction. }
  rewrite (check_and_deduct_enough chat_id user_id analysis_type s c Hc Hle).
  set (s0 := set_ledger _ s).
  pose proof (enqueue_task_insufficient token_address chat_id user_id
                analysis_type s0) as H.
  cbv zeta in H. destruct H as (Hf & Hl & Hq & Ha & _).
  { intros c' Hc'. subst s0. cbn [set_ledger ledger] in Hc'.
    rewrite lookup_insert_eq in Hc'. injection Hc' as <-. lia. }
  split; [exact Hf|]. rewrite Hl, Hq, Ha. subst s0.
  split; [reflexivity|]. split; reflexivity.
Qed.

Lemma add_task_other_kind_rejected_after_debit_witness :
  let r := add_task "T" 101 1 "quick"
             (run (init sample_ledger) [Submit "T" 102 2 "deep"; Pop]) in
  fst r = false /\ ledger (snd r) !! 1 = Some 0.
Proof.
  destruct (add_task_other_kind_rejected_after_debit "T" 101 1 "quick"
              (run (init sample_ledger) [Submit "T" 102 2 "deep"; Pop])
              (new_record 102 2 "deep") 1)
    as (Hf & Hl & _);
    [vm_compute; reflexivity|discriminate|vm_compute; reflexivity|
     vm_compute; split; [discriminate|reflexivity]|].
  cbv zeta. split; [exact Hf|]. rewrite Hl. apply lookup_insert_eq.
Defined.

End QueueExtras.

(** * Properties of the message splitting and of the handlers *)

Module TextFacts.
Import Text Messaging Handlers TextInputs Queue QueueFacts.

Lemma py_split_nonempty (sep : ascii) (s : string) : py_split sep s <> [].
Proof.
  destruct s as [|c s]; cbn [py_split]; [discriminate|].
  destruct (Ascii.eqb c sep); [discriminate|].
  destruct (py_split sep s); discriminate.
Qed.

Lemma py_split_no_sep (sep : ascii) (s : string) :
  has_char sep s = false -> py_split sep s = [s].
Proof.
  induction s as [|c s IH]; cbn [py_split has_char]; [reflexivity|].
  intros H. apply orb_false_iff in H. destruct H as [Hc Hs].
  rewrite Hc, (IH Hs). reflexivity.
Qed.

Lemma py_split_app (sep : ascii) (a b : string) :
  has_char sep a = false ->
  py_split sep (a +:+ String sep b) = a :: py_split sep b.
Proof.
  induction a as [|c a IH]; intros H.
  - change (EmptyString +:+ String sep b) with (String sep b).
    cbn [py_split]. rewrite Ascii.eqb_refl. reflexivity.
  - change (String c a +:+ String sep b) with (String c (a +:+ String sep b)).
    cbn [py_split has_char] in *.
    apply orb_false_iff in H. destruct H as [Hc Hs].
    rewrite Hc, (IH Hs). reflexivity.
Qed.

Lemma join_lines (text : string) :
  join (map (fun line => line +:+ String newline EmptyString)
          (py_split newline text))
  = text +:+ String newline EmptyString.
Proof.
  induction text as [|c text IH]; cbn [py_split]; [reflexivity|].
  change (String c text +:+ String newline EmptyString)
    with (String c (text +:+ String newline EmptyString)).
  rewrite <- IH.
  destruct (Ascii.eqb c newline) eqn:E.
  - apply Ascii.eqb_eq in E. subst c. reflexivity.
  - destruct (py_split newline text) as [|part parts] eqn:Ep.
    + exfalso. exact (py_split_nonempty _ _ Ep).
    + reflexivity.
Qed.

(** ** Strings *)

Lemma append_nil_r (s : string) : s +:+ EmptyString = s.
Proof.
  induction s as [|c s IH]; [reflexivity|].
  change (String c s +:+ EmptyString) with (String c (s +:+ EmptyString)).
  rewrite IH. reflexivity.
Qed.

Lemma append_assoc (a b c : string) : (a +:+ b) +:+ c = a +:+ (b +:+ c).
Proof.
  induction a as [|x a IH]; [reflexivity|].
  change ((String x a +:+ b) +:+ c) with (String x ((a +:+ b) +:+ c)).
  rewrite IH. reflexivity.
Qed.


Lemma join_app (l1 l2 : list string) : join (l1 ++ l2) = join l1 +:+ join l2.
Proof.
  induction l1 as [|x l1 IH]; cbn [app join foldr]; [reflexivity|].
  fold (join (l1 ++ l2)). fold (join l1). rewrite IH, append_assoc. reflexivity.
Qed.

Lemma join_snoc (l : list string) (x : string) : join (l ++ [x]) = join l +:+ x.
Proof.
  rewrite join_app. cbn [join foldr]. rewrite append_nil_r. reflexivity.
Qed.

(** ** Chunks *)

#[local] Abbreviation terminated line := (line +:+ String newline EmptyString).

Lemma build_chunks_content (lines chunks : list string) (current_chunk : string) :
  join (fst (build_chunks lines chunks current_chunk))
  +:+ snd (build_chunks lines chunks current_chunk)
  = join chunks +:+ current_chunk +:+ join (map (fun line => terminated line) lines).
Proof.
  revert chunks current_chunk.
  induction lines as [|line rest IH]; intros chunks current_chunk;
    cbn [build_chunks map join foldr fst snd].
  - rewrite append_nil_r. reflexivity.
  - fold (join (map (fun line => terminated line) rest)).
    destruct (String.length current_chunk + String.length line + 1
              <=? MAX_MESSAGE_LENGTH)%nat.
    + rewrite IH. rewrite !append_assoc. reflexivity.
    + rewrite IH. destruct current_chunk as [|c cur].
      * rewrite !append_assoc. reflexivity.
      * rewrite join_snoc. rewrite !append_assoc. reflexivity.
Qed.

Lemma message_chunks_content (text : string) :
  join (message_chunks text) = text +:+ String newline EmptyString.
Proof.
  unfold message_chunks.
  pose proof (build_chunks_content (py_split newline text) [] EmptyString) as H.
  destruct (build_chunks (py_split newline text) [] EmptyString)
    as [chunks current_chunk].
  cbn [fst snd] in H. rewrite join_lines in H.
  change (join [] +:+ EmptyString +:+ terminated text) with (terminated text) in H.
  rewrite <- H.
  destruct current_chunk as [|c cur].
  - rewrite append_nil_r. reflexivity.
  - apply join_snoc.
Qed.

(** X22. A text of more than 4096 characters is sent in parts, each a chunk
    behind the header of its part (numbered from 1), and the chunks put end
    to end are the text followed by a newline: nothing is lost and nothing
    else is added. *)
Theorem split_and_send_message_content (header : nat -> string) (text : string) :
  (MAX_MESSAGE_LENGTH < String.length text)%nat ->
  exists chunks,
    split_and_send_message header text
    = imap (fun i chunk => header (S i) +:+ chunk) chunks /\
    join chunks = text +:+ String newline EmptyString.
Proof.
  unfold split_and_send_message.
  intros H. apply Nat.leb_gt in H. rewrite H.
  exists (message_chunks text). split; [reflexivity|].
  apply message_chunks_content.
Qed.

Lemma split_and_send_message_content_witness :
  exists chunks,
    split_and_send_message (fun _ => "Part"%string) sample_report
    = imap (fun i chunk => "Part" +:+ chunk) chunks /\
    join chunks = sample_report +:+ String newline EmptyString.
Proof.
  apply (split_and_send_message_content (fun _ => "Part"%string) sample_report).
  apply Nat.ltb_lt. vm_compute. reflexivity.
Defined.




(** ** Callback data and cache keys *)

Lemma analyze_callback_data_split (analysis_type token_address : string) :
  has_char "_" analysis_type = false ->
  has_char "_" token_address = false ->
  py_split "_" (analyze_callback_data analysis_type token_address)
  = ["analyze"; analysis_type; token_address]%string.
Proof.
  intros Ht Ha. unfold analyze_callback_data.
  change ("analyze_" +:+ analysis_type +:+ "_" +:+ token_address)
    with ("analyze" +:+ String "_" (analysis_type +:+ String "_" token_address)).
  rewrite py_split_app by reflexivity.
  rewrite py_split_app by exact Ht.
  rewrite py_split_no_sep by exact Ha. reflexivity.
Qed.

(** X24. The "Start Analysis" button round-trips: for a kind and a token
    address without underscore, the handler reads back the kind and the token
    the menu put in the button, and passes a requester whose balance covers
    the cost on to [add_task] with exactly those. *)
Theorem handle_analysis_start_admits (analysis_type token_address : string)
    (chat_id user_id : Z) (s : State) (c : Z) :
  has_char "_" analysis_type = false ->
  has_char "_" token_address = false ->
  ledger s !! user_id = Some c ->
  (credits_required analysis_type <= c)%Z ->
  handle_analysis_start (analyze_callback_data analysis_type token_address)
    chat_id user_id s
  = snd (add_task token_address chat_id user_id analysis_type s).
Proof.
  intros Ht Ha Hc Hle. unfold handle_analysis_start.
  rewrite (analyze_callback_data_split _ _ Ht Ha). unfold get_user.
  rewrite Hc.
  destruct (c <? credits_required analysis_type)%Z eqn:E; [|reflexivity].
  apply Z.ltb_lt in E. lia.
Qed.

Lemma handle_analysis_start_admits_witness :
  handle_analysis_start (analyze_callback_data "deep" "0xT") 102 2
    (init Inputs.sample_ledger)
  = snd (add_task "0xT" 102 2 "deep" (init Inputs.sample_ledger)).
Proof.
  apply (handle_analysis_start_admits "deep" "0xT" 102 2
           (init Inputs.sample_ledger) 10);
    [reflexivity|reflexivity|reflexivity|discriminate].
Defined.

(** X25. A requester whose balance does not cover the cost is only told so
    by the handler: the button does not reach [add_task], so the ledger, the
    queue and the in-flight records stay as they are, also when the same
    analysis of the token is in flight and [add_task] would attach the
    requester without asking for credits. *)
Theorem handle_analysis_start_rejects (analysis_type token_address : string)
    (chat_id user_id : Z) (s : State) :
  has_char "_" analysis_type = false ->
  has_char "_" token_address = false ->
  (balance s user_id < credits_required analysis_type)%Z ->
  handle_analysis_start (analyze_callback_data analysis_type token_address)
    chat_id user_id s
  = send_message chat_id
      (MsgInsufficient (credits_required analysis_type) (balance s user_id)) s.
Proof.
  intros Ht Ha Hlow. unfold handle_analysis_start.
  rewrite (analyze_callback_data_split _ _ Ht Ha).
  unfold get_user. unfold balance in *.
  destruct (ledger s !! user_id) as [c|]; [|reflexivity].
  change (c < credits_required analysis_type)%Z in Hlow.
  apply Z.ltb_lt in Hlow. rewrite Hlow. reflexivity.
Qed.

Lemma handle_analysis_start_rejects_witness :
  handle_analysis_start (analyze_callback_data "quick" "T") 103 3
    Inputs.quick_in_flight
  = send_message 103 (MsgInsufficient 1 0) Inputs.quick_in_flight.
Proof.
  apply (handle_analysis_start_rejects "quick" "T" 103 3 Inputs.quick_in_flight);
    reflexivity.
Defined.

(** X26. The key a report is cached under reads back as its token and its
    kind, provided neither holds an underscore. *)
Theorem cache_key_fields_round_trip (token_address analysis_type : string) :
  has_char "_" token_address = false ->
  has_char "_" analysis_type = false ->
  cache_key_fields (cache_key token_address analysis_type)
  = Some (token_address, analysis_type).
Proof.
  intros Ha Ht. unfold cache_key_fields, cache_key.
  change (token_address +:+ "_" +:+ analysis_type)
    with (token_address +:+ String "_" analysis_type).
  rewrite py_split_app by exact Ha.
  rewrite py_split_no_sep by exact Ht. reflexivity.
Qed.

Lemma cache_key_fields_round_trip_witness :
  cache_key_fields (cache_key "0xAbC" "deep") = Some ("0xAbC", "deep")%string.
Proof.
  apply cache_key_fields_round_trip; reflexivity.
Defined.

End TextFacts.
